(** * Navigator orchestrator (src/navigator/orchestrator.py)

    A shallow embedding of the [Navigator] class: its constructor, the
    [perform_web_goal] pipeline with its [try]/[finally] block,
    [summarize_results] and the pass-through accessors.

    The collaborators ([TaskPlanner], [WebNavigator], [SemanticIndexer],
    the Ollama client, ...) are imported by the module and are not part of
    it.  They are taken as parameters: each call is a function on an
    abstract collaborator state [W] that either returns a value or raises.
    Every call the orchestrator makes is written to a call log, so that
    the order and the arguments of the calls can be stated.  The console
    ([rich]'s [Console]) is one more collaborator: a print can raise, as
    [rich] does on text whose markup it cannot read.

    [await] on a collaborator is modelled as the call itself: within one
    invocation the coroutine runs its awaits one after the other, and a
    cancellation delivered at an [await] is an exception raised there.
    A call returns or raises; a call that never comes back is not
    modelled.  A character of a string of the model stands for a
    character of the Python string. *)

From Stdlib Require Import ZArith String Ascii List Lia DecimalString.
From stdpp Require Import base option list strings gmap.

Set Warnings "-register-all".
Local Open Scope string_scope.
Local Open Scope list_scope.

(** ** Python values *)

(** The values the orchestrator looks into: memory records and the
    response of the inference client are dictionaries with string keys.
    A dictionary keeps its items in insertion order; [VFloat m e] stands
    for the finite float [m * 2^e] (the [score] of a memory record). *)
Inductive pyval : Type :=
| VNone
| VInt (z : Z)
| VFloat (m e : Z)
| VStr (s : string)
| VDict (items : list (string * pyval)).

(** Exceptions: the two the interpreter raises on the operations used
    here, and the ones raised by collaborators, identified by a name. *)
Inductive exn : Type :=
| AttributeError
| TypeError
| OtherError (name : string).

Inductive outcome (A : Type) : Type :=
| Returned (a : A)
| Raised (e : exn).
Arguments Returned {A} a.
Arguments Raised {A} e.

Definition obind {A B : Type} (o : outcome A) (k : A -> outcome B) : outcome B :=
  match o with
  | Returned a => k a
  | Raised e => Raised e
  end.

Notation "'try!' x := c1 'in' c2" := (obind c1 (fun x => c2))
  (at level 10, x name, c1 at level 100, c2 at level 200).

(** [d[k]] for a dictionary given by its items. *)
Fixpoint dict_lookup (key : string) (items : list (string * pyval)) : option pyval :=
  match items with
  | [] => None
  | (k, v) :: rest => if String.eqb k key then Some v else dict_lookup key rest
  end.

(** [obj.get(key, default)]: only a dictionary has a [get] method. *)
Definition py_get (obj : pyval) (key : string) (default : pyval) : outcome pyval :=
  match obj with
  | VDict items =>
      Returned (match dict_lookup key items with Some v => v | None => default end)
  | _ => Raised AttributeError
  end.

(** [v == s] for a string literal [s]. *)
Definition py_eq_str (v : pyval) (s : string) : bool :=
  match v with
  | VStr t => String.eqb t s
  | _ => false
  end.

(** [v[:n]] followed by its interpolation in an f-string.  Among the
    values above only a [str] can be sliced; it is interpolated as it is.
    (Slicing [None] or a number is a [TypeError]; slicing a dictionary is
    a [TypeError] up to Python 3.11.) *)
Definition py_slice_to (n : nat) (v : pyval) : outcome string :=
  match v with
  | VStr s => Returned (substring 0 n s)
  | _ => Raised TypeError
  end.

Definition newline : string := String (ascii_of_nat 10) EmptyString.

(** [f"{n}"] for a non-negative integer. *)
Definition str_of_nat (n : nat) : string := NilZero.string_of_uint (Nat.to_uint n).

(** ** The pure part of [summarize_results] (lines 105-126) *)

(** The condition of the comprehension on line 106:
    [m.get('metadata', {}).get('type') == 'api_request']. *)
Definition is_api_request (m : pyval) : outcome bool :=
  try! metadata := py_get m "metadata" (VDict []) in
  try! ty := py_get metadata "type" VNone in
  Returned (py_eq_str ty "api_request").

(** [[m for m in memories if cond(m)]]: the condition is evaluated on the
    records in order, and the first one that raises ends the loop. *)
Fixpoint comprehension (cond : pyval -> outcome bool) (memories : list pyval)
  : outcome (list pyval) :=
  match memories with
  | [] => Returned []
  | m :: rest =>
      try! keep := cond m in
      try! kept := comprehension cond rest in
      Returned (if keep then m :: kept else kept)
  end.

(** Line 113, the text appended for the record at position [i] of
    [enumerate(api_memories)]:
    [f"{i+1}. {api.get('text', '')[:200]}...\n"]. *)
Definition excerpt_line (i : nat) (api : pyval) : outcome string :=
  try! text := py_get api "text" (VStr "") in
  try! excerpt := py_slice_to 200 text in
  Returned (str_of_nat (i + 1) +:+ ". " +:+ excerpt +:+ "..." +:+ newline).

(** The [for] loop of lines 112-113, [i] being the next index. *)
Fixpoint excerpt_loop (i : nat) (api_memories : list pyval) (api_info : string)
  : outcome string :=
  match api_memories with
  | [] => Returned api_info
  | api :: rest =>
      try! line := excerpt_line i api in
      excerpt_loop (S i) rest (api_info +:+ line)
  end.

(** Lines 109-113. *)
Definition format_api_info (api_memories : list pyval) : outcome string :=
  match api_memories with
  | [] => Returned ""
  | _ :: _ => excerpt_loop 0 api_memories ("APIs discovered:" +:+ newline)
  end.

(** Lines 116-126.  In the source every line break of the prompt but the
    ones inside [api_info] is written [\\n]: a backslash and the letter n,
    which is what the string literals below hold. *)
Definition build_prompt (user_goal api_info : string) : string :=
  "You are Hermes-3, an expert AI assistant skilled at summarizing information. "
  +:+ "Summarize what was learned while pursuing this web automation goal: '"
  +:+ user_goal +:+ "'.\n\n"
  +:+ "Context:\n"
  +:+ api_info +:+ "\n"
  +:+ "Focus your summary on these key aspects:\n"
  +:+ "1. What was the primary outcome or accomplishment related to the goal?\n"
  +:+ "2. What specific API patterns, request structures, or key UI elements were discovered or interacted with?\n"
  +:+ "3. What insights or learned patterns could be useful for future automation tasks related to this website or goal?\n"
  +:+ "Keep the summary concise and informative.".

(** Lines 105-113 together: from the memories to the context block. *)
Definition context_block (memories : list pyval) : outcome string :=
  try! api_memories := comprehension is_api_request memories in
  format_api_info api_memories.

(** ** Calls, call log and the orchestrator's monad *)

Section Orchestrator.

(** [W] is the state of the collaborators (browser session, memory store,
    model backend); [Obj] is the type of the values the orchestrator only
    hands over: the page state read from the web navigator and the plan. *)
Context {W Obj : Type}.

(** What [console.print] is given, by line of the source: the value that
    the f-string interpolates into the fixed text of that line. *)
Inductive message : Type :=
| MsgReceived (user_goal : string)
| MsgPlan (detailed_plan : Obj)
| MsgSummary (summary : pyval)
| MsgFinished (user_goal : string).

(** One entry of the call log per call made by the orchestrator, with the
    arguments of the call. *)
Inductive event : Type :=
| EPrint (m : message)
| EGetCurrentUrl
| EGetPageContent
| EGetCapturedApis
| ECreateDetailedPlan (user_goal : string) (current_url page_content api_history : Obj)
| ENavigateAndLearn (user_goal : string) (plan : Obj)
| ECloseBrowser
| ESearchMemory (query : string) (top_k : Z)
| EGenerateText (prompt model_type : string)
| EGenerateCode (task_description : string).

(** The module's [console] and the objects held by a [Navigator]:
    [self.web_navigator], [self.planner], [self.semantic_indexer],
    [self.ollama_client] and [self.code_assistant], each given by what a
    call does to [W] and whether it returns or raises. *)
Record collaborators : Type := {
  console : message -> W -> W * outcome unit;
  current_url : W -> W * outcome Obj;
  page_content : W -> W * outcome Obj;
  captured_apis : W -> W * outcome Obj;
  create_detailed_plan : string -> Obj -> Obj -> Obj -> W -> W * outcome Obj;
  navigate_and_learn : string -> Obj -> W -> W * outcome unit;
  close_browser : W -> W * outcome unit;
  search_memory : string -> Z -> W -> W * outcome (list pyval);
  generate_text : string -> string -> W -> W * outcome pyval;
  generate_code : string -> W -> W * outcome pyval
}.

(** What a computation leaves behind: the world it ends in, the calls it
    made, in order, and whether it returned or raised. *)
Record result (A : Type) : Type := {
  final : W;
  log : list event;
  out : outcome A
}.
Arguments final {A} r.
Arguments log {A} r.
Arguments out {A} r.

(** A computation runs from a world of the collaborators. *)
Definition M (A : Type) : Type := W -> result A.

Definition ret {A : Type} (a : A) : M A :=
  fun w => {| final := w; log := []; out := Returned a |}.

Definition bind {A B : Type} (c : M A) (k : A -> M B) : M B :=
  fun w =>
    let r1 := c w in
    match out r1 with
    | Returned a =>
        let r2 := k a (final r1) in
        {| final := final r2; log := log r1 ++ log r2; out := out r2 |}
    | Raised e => {| final := final r1; log := log r1; out := Raised e |}
    end.

(** A computation without effect that may raise. *)
Definition lift {A : Type} (o : outcome A) : M A :=
  fun w => {| final := w; log := []; out := o |}.

(** A call to a collaborator: logged, and run on the world. *)
Definition call {A : Type} (ev : event) (f : W -> W * outcome A) : M A :=
  fun w => {| final := (f w).1; log := [ev]; out := (f w).2 |}.

(** [try: body finally: handler].  The handler runs whether the body
    returned or raised.  If the handler returns, the outcome of the body
    stands; if the handler raises, its exception is the one that leaves the
    statement (Python keeps the exception of the body only as the
    [__context__] of the new one). *)
Definition try_finally {A : Type} (body : M A) (handler : M unit) : M A :=
  fun w =>
    let r1 := body w in
    let r2 := handler (final r1) in
    {| final := final r2;
       log := log r1 ++ log r2;
       out := match out r2 with
              | Returned _ => out r1
              | Raised e => Raised e
              end |}.

Notation "x <- c1 ;; c2" := (bind c1 (fun x => c2))
  (at level 100, c1 at next level, right associativity).
Notation "c1 ;; c2" := (bind c1 (fun _ => c2))
  (at level 100, right associativity).

Variable self : collaborators.

(** [console.print(...)]: a call like the others. *)
Definition console_print (m : message) : M unit :=
  call (EPrint m) (console self m).

(** ** The methods of [Navigator] *)

(** Lines 92-129. *)
Definition summarize_results (user_goal : string) : M pyval :=
  memories <- call (ESearchMemory user_goal 10) (search_memory self user_goal 10) ;;
  api_memories <- lift (comprehension is_api_request memories) ;;
  api_info <- lift (format_api_info api_memories) ;;
  let prompt := build_prompt user_goal api_info in
  response <- call (EGenerateText prompt "general")
                   (generate_text self prompt "general") ;;
  lift (py_get response "response" (VStr "No summary available.")).

(** Lines 49-90. *)
Definition perform_web_goal (user_goal : string) : M unit :=
  console_print (MsgReceived user_goal) ;;
  try_finally
    (url <- call EGetCurrentUrl (current_url self) ;;
     content <- call EGetPageContent (page_content self) ;;
     api_history <- call EGetCapturedApis (captured_apis self) ;;
     detailed_plan <-
       call (ECreateDetailedPlan user_goal url content api_history)
            (create_detailed_plan self user_goal url content api_history) ;;
     console_print (MsgPlan detailed_plan) ;;
     call (ENavigateAndLearn user_goal detailed_plan)
          (navigate_and_learn self user_goal detailed_plan) ;;
     summary <- summarize_results user_goal ;;
     console_print (MsgSummary summary))
    (call ECloseBrowser (close_browser self)) ;;
  console_print (MsgFinished user_goal).

(** Lines 131-141. *)
Definition api_search (query : string) : M (list pyval) :=
  call (ESearchMemory query 5) (search_memory self query 5).

(** Lines 143-153. *)
Definition generate_code_for_task (task_description : string) : M pyval :=
  call (EGenerateCode task_description) (generate_code self task_description).

(** *** The pipeline states, for stating what happens when one raises *)

(** PLANNING, lines 67-76: the three reads of the navigation state and the
    call to the planner. *)
Definition planning (user_goal : string) : M Obj :=
  url <- call EGetCurrentUrl (current_url self) ;;
  content <- call EGetPageContent (page_content self) ;;
  api_history <- call EGetCapturedApis (captured_apis self) ;;
  call (ECreateDetailedPlan user_goal url content api_history)
       (create_detailed_plan self user_goal url content api_history).

(** EXECUTING, line 80. *)
Definition executing (user_goal : string) (detailed_plan : Obj) : M unit :=
  call (ENavigateAndLearn user_goal detailed_plan)
       (navigate_and_learn self user_goal detailed_plan).

(** SUMMARIZING, lines 83-84. *)
Definition summarizing (user_goal : string) : M unit :=
  summary <- summarize_results user_goal ;;
  console_print (MsgSummary summary).

(** The body of the [try], lines 65-84. *)
Definition pipeline (user_goal : string) : M unit :=
  detailed_plan <- planning user_goal ;;
  console_print (MsgPlan detailed_plan) ;;
  executing user_goal detailed_plan ;;
  summarizing user_goal.

(** CLEANUP, line 88. *)
Definition cleanup : M unit := call ECloseBrowser (close_browser self).

End Orchestrator.

Arguments message : clear implicits.
Arguments event : clear implicits.
Arguments collaborators : clear implicits.
Arguments result : clear implicits.
Arguments M : clear implicits.
Arguments final {W Obj A} r.
Arguments log {W Obj A} r.
Arguments out {W Obj A} r.

(** *** Reading the call log *)

Definition is_close {Obj : Type} (ev : event Obj) : bool :=
  match ev with ECloseBrowser => true | _ => false end.

Definition is_navigate {Obj : Type} (ev : event Obj) : bool :=
  match ev with ENavigateAndLearn _ _ => true | _ => false end.

(** The calls made by [summarize_results]. *)
Definition is_summarize {Obj : Type} (ev : event Obj) : bool :=
  match ev with
  | ESearchMemory _ _ | EGenerateText _ _ | EPrint (MsgSummary _) => true
  | _ => false
  end.

(** The number of entries of the log that satisfy [p]. *)
Definition count {Obj : Type} (p : event Obj -> bool) (l : list (event Obj)) : nat :=
  length (List.filter p l).

(** The computation [c] makes no call that satisfies [p], whatever the
    world it starts from. *)
Definition makes_no {W Obj A : Type} (p : event Obj -> bool) (c : M W Obj A) : Prop :=
  forall w, count p (log (c w)) = 0.

(** *** Where an invocation raises *)

Section Raising.

Context {W Obj : Type} (self : collaborators W Obj).
Variables (user_goal : string) (w : W) (e : exn).

(** The steps of the invocation of [perform_web_goal] on [w], each on the
    world the one before it left: the print of line 63, before the [try];
    PLANNING; the print of the plan; EXECUTING; [summarize_results]. *)
Definition entry_print : result W Obj unit :=
  console_print self (MsgReceived user_goal) w.

Definition planned : result W Obj Obj :=
  planning self user_goal (final entry_print).

Definition plan_print (plan : Obj) : result W Obj unit :=
  console_print self (MsgPlan plan) (final planned).

Definition executed (plan : Obj) : result W Obj unit :=
  executing self user_goal plan (final (plan_print plan)).

Definition summarized (plan : Obj) : result W Obj pyval :=
  summarize_results self user_goal (final (executed plan)).

(** The body of the [try], on the world the entry print left. *)
Definition try_body : result W Obj unit :=
  pipeline self user_goal (final entry_print).

(** The invocation reaches PLANNING, which raises [e]. *)
Definition raises_in_planning : Prop :=
  out entry_print = Returned tt
  /\ out planned = Raised e.

(** The invocation reaches EXECUTING, which raises [e]. *)
Definition raises_in_executing : Prop :=
  exists plan,
    out entry_print = Returned tt
    /\ out planned = Returned plan
    /\ out (plan_print plan) = Returned tt
    /\ out (executed plan) = Raised e.

(** The invocation reaches SUMMARIZING (lines 83-84), which raises [e]. *)
Definition raises_in_summarizing : Prop :=
  exists plan,
    out entry_print = Returned tt
    /\ out planned = Returned plan
    /\ out (plan_print plan) = Returned tt
    /\ out (executed plan) = Returned tt
    /\ out (summarizing self user_goal (final (executed plan))) = Raised e.

(** The invocation reaches [summarize_results] (line 83), which raises [e]. *)
Definition summarize_results_raises : Prop :=
  exists plan,
    out entry_print = Returned tt
    /\ out planned = Returned plan
    /\ out (plan_print plan) = Returned tt
    /\ out (executed plan) = Returned tt
    /\ out (summarized plan) = Raised e.

(** The outcome of the cleanup call, made on the world the body of the
    [try] left. *)
Definition cleanup_outcome : outcome unit :=
  (close_browser self (final try_body)).2.

End Raising.

(** ** Construction of a [Navigator] (lines 15-42) *)

(** Objects live in a heap and are held by reference.  The classes built
    by the constructor are imported, not defined, by this module: an
    instance is recorded with the arguments its constructor was given. *)
Definition loc : Type := positive.

Inductive object : Type :=
| OllamaClient
| SeleniumManager (headless : bool)
| CodeAssistant (client : loc)
| TaskPlanner (client : loc)
| APIReverseEngineer (client : loc)
| SemanticIndexer (client : loc)
| WebNavigator (client manager : loc) (db_session_factory : string).

(** [Class(args)]: a new object at a reference that was not in use. *)
Definition alloc (o : object) (h : gmap loc object) : loc * gmap loc object :=
  let l := fresh (dom h) in (l, <[l := o]> h).

(** The attributes set on [self]. *)
Record navigator : Type := {
  ollama_client : loc;
  selenium_manager : loc;
  code_assistant : loc;
  planner : loc;
  api_reverse_engineer : loc;
  semantic_indexer : loc;
  web_navigator : loc
}.

(** [Navigator.__init__(self, ollama_client, selenium_manager=None)];
    [None] stands for the argument left out or given as [None].  The
    factory handed to the web navigator is the bound method
    [self._get_db_session_for_navigator], recorded by its name. *)
Definition Navigator_init (client : loc) (manager : option loc) (h : gmap loc object)
  : navigator * gmap loc object :=
  let '(sm, h1) :=
    match manager with
    | None => alloc (SeleniumManager false) h
    | Some m => (m, h)
    end in
  let '(ca, h2) := alloc (CodeAssistant client) h1 in
  let '(pl, h3) := alloc (TaskPlanner client) h2 in
  let '(re, h4) := alloc (APIReverseEngineer client) h3 in
  let '(si, h5) := alloc (SemanticIndexer client) h4 in
  let '(wn, h6) := alloc (WebNavigator client sm "_get_db_session_for_navigator") h5 in
  ({| ollama_client := client;
      selenium_manager := sm;
      code_assistant := ca;
      planner := pl;
      api_reverse_engineer := re;
      semantic_indexer := si;
      web_navigator := wn |}, h6).


(** ** Memory records as the data model describes them *)

(** A memory record is a dictionary; its ['metadata'], when present, is a
    dictionary, and its ['text'], when present, is a string.  Either may
    be missing. *)
Definition well_formed_record (m : pyval) : bool :=
  match m with
  | VDict items =>
      match dict_lookup "metadata" items with
      | None | Some (VDict _) => true
      | Some _ => false
      end
      &&
      match dict_lookup "text" items with
      | None | Some (VStr _) => true
      | Some _ => false
      end
  | _ => false
  end.

(** The record has a ['metadata'] whose ['type'] is the string
    ['api_request']. *)
Definition has_api_request_type (m : pyval) : bool :=
  match m with
  | VDict items =>
      match dict_lookup "metadata" items with
      | Some (VDict metadata) =>
          match dict_lookup "type" metadata with
          | Some (VStr ty) => String.eqb ty "api_request"
          | _ => false
          end
      | _ => false
      end
  | _ => false
  end.

(** The ['text'] of a record, empty when the record has none. *)
Definition record_text (m : pyval) : string :=
  match m with
  | VDict items =>
      match dict_lookup "text" items with
      | Some (VStr s) => s
      | _ => ""
      end
  | _ => ""
  end.

(** The context block as section 4.3 describes it: the records of type
    ['api_request'], in result order, numbered from 1, each with the first
    200 characters of its text; nothing when there is no such record.
    The specification leaves the layout open; the header line and the
    punctuation around an excerpt are those of the source. *)
Definition numbered_excerpt (i : nat) (m : pyval) : string :=
  str_of_nat (S i) +:+ ". " +:+ substring 0 200 (record_text m) +:+ "..." +:+ newline.

Definition spec_context_block (memories : list pyval) : string :=
  match List.filter has_api_request_type memories with
  | [] => ""
  | kept => ("APIs discovered:" +:+ newline) +:+ String.concat "" (imap numbered_excerpt kept)
  end.

(** A response of the inference client: a dictionary whose ['response'],
    when present, is a string. *)
Definition well_formed_response (response : pyval) : bool :=
  match response with
  | VDict items =>
      match dict_lookup "response" items with
      | None | Some (VStr _) => true
      | Some _ => false
      end
  | _ => false
  end.

(** ** Scripted collaborators

    A family of concrete collaborators on which the methods can be run:
    the world is whether the browser is open, the opaque values are
    strings, and each call has a fixed outcome.  The console of this
    family prints everything. *)
Definition scripted (plan : outcome string) (navigation closing : outcome unit)
    (memories : outcome (list pyval)) (response : outcome pyval)
  : collaborators bool string := {|
  console := fun _ w => (w, Returned tt);
  current_url := fun w => (w, Returned "about:blank");
  page_content := fun w => (w, Returned "<html></html>");
  captured_apis := fun w => (w, Returned "[]");
  create_detailed_plan := fun _ _ _ _ w => (w, plan);
  navigate_and_learn := fun _ _ w => (true, navigation);
  close_browser :=
    fun w => (match closing with Returned _ => false | Raised _ => w end, closing);
  search_memory := fun _ _ w => (w, memories);
  generate_text := fun _ _ w => (w, response);
  generate_code := fun _ w => (w, Returned (VStr "pass"))
|}.

Definition api_record (text : string) : pyval :=
  VDict [("text", VStr text);
         ("metadata", VDict [("type", VStr "api_request")]);
         ("score", VFloat 3 (-2))].

Definition page_record (text : string) : pyval :=
  VDict [("text", VStr text);
         ("metadata", VDict [("type", VStr "page_visit")]);
         ("score", VFloat 1 (-1))].

(** The scenario of section 8: two records of type ['api_request'] and one
    of another type. *)
Definition pricing_memories : list pyval :=
  [api_record "GET /api/v1/pricing";
   page_record "Pricing page";
   api_record "POST /api/v1/quote"].

Definition planner_down : exn := OtherError "PlannerError".
Definition navigation_failed : exn := OtherError "NavigationError".
Definition inference_down : exn := OtherError "InferenceError".
Definition driver_crashed : exn := OtherError "WebDriverException".

Definition all_well : collaborators bool string :=
  scripted (Returned "1. open the pricing page") (Returned tt) (Returned tt)
           (Returned pricing_memories)
           (Returned (VDict [("response", VStr "Found two pricing endpoints.")])).

(** ** Further readings of the log and of the records *)

(** The call to the planner. *)
Definition is_plan {Obj : Type} (ev : event Obj) : bool :=
  match ev with ECreateDetailedPlan _ _ _ _ => true | _ => false end.

(** The print of line 90, after the [try] statement. *)
Definition is_exit_print {Obj : Type} (ev : event Obj) : bool :=
  match ev with EPrint (MsgFinished _) => true | _ => false end.

(** The calls on [self.web_navigator]: the three reads of its state,
    [navigate_and_learn] and [close_browser]. *)
Definition is_browser_call {Obj : Type} (ev : event Obj) : bool :=
  match ev with
  | EGetCurrentUrl | EGetPageContent | EGetCapturedApis
  | ENavigateAndLearn _ _ | ECloseBrowser => true
  | _ => false
  end.

(** The record is a dictionary whose ['metadata'], when present, is a
    dictionary: the condition of line 106 can be evaluated on it. *)
Definition filterable (m : pyval) : bool :=
  match m with
  | VDict items =>
      match dict_lookup "metadata" items with
      | None | Some (VDict _) => true
      | Some _ => false
      end
  | _ => false
  end.

(** The record is a dictionary whose ['text'], when present, is a string:
    line 113 can slice it. *)
Definition excerptable (m : pyval) : bool :=
  match m with
  | VDict items =>
      match dict_lookup "text" items with
      | None | Some (VStr _) => true
      | Some _ => false
      end
  | _ => false
  end.

(** Collaborators like [base], except that reading [page_content] has
    the given outcome. *)
Definition with_page_content (reading : outcome string)
    (base : collaborators bool string) : collaborators bool string := {|
  console := console base;
  current_url := current_url base;
  page_content := fun w => (w, reading);
  captured_apis := captured_apis base;
  create_detailed_plan := create_detailed_plan base;
  navigate_and_learn := navigate_and_learn base;
  close_browser := close_browser base;
  search_memory := search_memory base;
  generate_text := generate_text base;
  generate_code := generate_code base
|}.

(** The text a line interpolates. *)
Definition interpolated (m : message string) : string :=
  match m with
  | MsgReceived user_goal | MsgFinished user_goal => user_goal
  | MsgPlan detailed_plan => detailed_plan
  | MsgSummary (VStr summary) => summary
  | MsgSummary _ => ""
  end.

(** The text holds the opening of a closing tag, [[/]. *)
Fixpoint has_closing_tag (s : string) : bool :=
  match s with
  | EmptyString => false
  | String c rest =>
      match rest with
      | String c' _ =>
          (Ascii.eqb c "[" && Ascii.eqb c' "/") || has_closing_tag rest
      | EmptyString => false
      end
  end.

Definition markup_error : exn := OtherError "MarkupError".

(** A console that refuses a closing tag in the interpolated text, as
    [rich] does: every line of the source closes its own tag after the
    text, so a closing tag inside the text leaves one that matches no
    open tag. *)
Definition markup_console (m : message string) (w : bool) : bool * outcome unit :=
  (w, if has_closing_tag (interpolated m) then Raised markup_error else Returned tt).

(** Collaborators like [base], with the console given. *)
Definition with_console (printing : message string -> bool -> bool * outcome unit)
    (base : collaborators bool string) : collaborators bool string := {|
  console := printing;
  current_url := current_url base;
  page_content := page_content base;
  captured_apis := captured_apis base;
  create_detailed_plan := create_detailed_plan base;
  navigate_and_learn := navigate_and_learn base;
  close_browser := close_browser base;
  search_memory := search_memory base;
  generate_text := generate_text base;
  generate_code := generate_code base
|}.

Definition stale_element : exn := OtherError "StaleElementReferenceException".
Definition memory_store_down : exn := OtherError "MemoryStoreError".

(** * Properties *)

(** ** Strings and call logs *)

Lemma append_assoc (a b c : string) : (a +:+ b) +:+ c = a +:+ (b +:+ c).
Proof.
  induction a as [|ch a IH]; [reflexivity|].
  change (String ch ((a +:+ b) +:+ c) = String ch (a +:+ (b +:+ c))).
  now f_equal.
Qed.

Lemma substring_prefix_length (n : nat) (s : string) :
  String.length (substring 0 n s) = Nat.min n (String.length s).
Proof.
  revert s; induction n as [|n IH]; intros [|ch s]; simpl; auto.
Qed.

Lemma substring_is_prefix (n : nat) (s : string) :
  exists rest, s = substring 0 n s +:+ rest.
Proof.
  revert s; induction n as [|n IH]; intros [|ch s]; simpl.
  - now exists "".
  - now exists (String ch s).
  - now exists "".
  - destruct (IH s) as [rest Hr]. exists rest.
    change (String ch s = String ch (substring 0 n s +:+ rest)). now f_equal.
Qed.

Lemma count_app {Obj : Type} (p : event Obj -> bool) (l1 l2 : list (event Obj)) :
  count p (l1 ++ l2) = count p l1 + count p l2.
Proof.
  unfold count. now rewrite List.filter_app, length_app.
Qed.

Section PipelineProperties.

Context {W Obj : Type} (self : collaborators W Obj).

(** *** Calls a computation does not make *)

Lemma makes_no_bind {A B : Type} (p : event Obj -> bool)
    (c : M W Obj A) (k : A -> M W Obj B) :
  makes_no p c -> (forall a, makes_no p (k a)) -> makes_no p (bind c k).
Proof.
  intros Hc Hk w. unfold bind.
  destruct (out (c w)) as [a|e]; simpl.
  - rewrite count_app, Hc, (Hk a). reflexivity.
  - apply Hc.
Qed.

Lemma makes_no_call {A : Type} (p : event Obj -> bool) (ev : event Obj)
    (f : W -> W * outcome A) :
  p ev = false -> makes_no p (call ev f).
Proof.
  intros Hp w. unfold count, call; simpl. now rewrite Hp.
Qed.

Lemma makes_no_lift {A : Type} (p : event Obj -> bool) (o : outcome A) :
  makes_no p (lift (W := W) o).
Proof. intros w. reflexivity. Qed.

Lemma makes_no_print (p : event Obj -> bool) (m : message Obj) :
  p (EPrint m) = false -> makes_no p (console_print self m).
Proof. intros Hp. now apply makes_no_call. Qed.

Ltac quiet :=
  repeat first
    [ apply makes_no_bind; [|intros ?]
    | apply makes_no_call; reflexivity
    | apply makes_no_print; reflexivity
    | apply makes_no_lift ].

Lemma planning_makes_only_planning_calls (user_goal : string) :
  makes_no is_close (planning self user_goal)
  /\ makes_no is_navigate (planning self user_goal)
  /\ makes_no is_summarize (planning self user_goal).
Proof. unfold planning. repeat split; quiet. Qed.

Lemma executing_makes_no_summary (user_goal : string) (plan : Obj) :
  makes_no is_close (executing self user_goal plan)
  /\ makes_no is_summarize (executing self user_goal plan).
Proof. unfold executing. split; quiet. Qed.

Lemma summarize_results_keeps_browser (user_goal : string) :
  makes_no is_close (summarize_results self user_goal)
  /\ makes_no is_navigate (summarize_results self user_goal).
Proof. unfold summarize_results. split; quiet. Qed.

Lemma pipeline_keeps_browser (user_goal : string) :
  makes_no is_close (pipeline self user_goal).
Proof.
  unfold pipeline, planning, executing, summarizing, summarize_results. quiet.
Qed.

(** *** The shape of an invocation *)

Lemma bind_assoc {A B C : Type} (c : M W Obj A) (k : A -> M W Obj B)
    (h : B -> M W Obj C) (w : W) :
  bind (bind c k) h w = bind c (fun a => bind (k a) h) w.
Proof.
  unfold bind. destruct (c w) as [w1 l1 [a|e]]; cbn [final log out]; [|reflexivity].
  destruct (k a w1) as [w2 l2 [b|e]]; cbn [final log out]; [|reflexivity].
  now rewrite app_assoc.
Qed.

Lemma bind_ext {A B : Type} (c : M W Obj A) (k k' : A -> M W Obj B) (w : W) :
  (forall a w', k a w' = k' a w') -> bind c k w = bind c k' w.
Proof.
  intros Hk. unfold bind. destruct (c w) as [w1 l1 [a|e]]; cbn [final log out];
    [now rewrite Hk | reflexivity].
Qed.

Lemma bind_ext_l {A B : Type} (c c' : M W Obj A) (k : A -> M W Obj B) (w : W) :
  c w = c' w -> bind c k w = bind c' k w.
Proof. intros Hc. unfold bind. now rewrite Hc. Qed.

Lemma try_finally_ext {A : Type} (body body' : M W Obj A) (handler : M W Obj unit)
    (w : W) :
  body w = body' w -> try_finally body handler w = try_finally body' handler w.
Proof. intros Hb. unfold try_finally. now rewrite Hb. Qed.

(** The body of the [try] of [perform_web_goal] is the pipeline. *)
Lemma try_body_is_pipeline (user_goal : string) (w : W) :
  perform_web_goal self user_goal w =
  bind (console_print self (MsgReceived user_goal))
       (fun _ => bind (try_finally (pipeline self user_goal) (cleanup self))
                      (fun _ => console_print self (MsgFinished user_goal))) w.
Proof.
  unfold perform_web_goal. apply bind_ext; intros _ w1.
  apply bind_ext_l, try_finally_ext.
  unfold pipeline, planning.
  rewrite bind_assoc. apply bind_ext; intros url w2.
  rewrite bind_assoc. apply bind_ext; intros content w3.
  rewrite bind_assoc. reflexivity.
Qed.

Lemma count_cons {l : list (event Obj)} (p : event Obj -> bool) (ev : event Obj) :
  count p (ev :: l) = (if p ev then 1 else 0) + count p l.
Proof. unfold count; simpl. now destruct (p ev). Qed.

Ltac norm_app := repeat (rewrite <- app_assoc || rewrite <- app_comm_cons).

Lemma bind_run {A B : Type} (c : M W Obj A) (k : A -> M W Obj B) (w : W) :
  bind c k w =
  match out (c w) with
  | Returned a =>
      {| final := final (k a (final (c w)));
         log := log (c w) ++ log (k a (final (c w)));
         out := out (k a (final (c w))) |}
  | Raised e => {| final := final (c w); log := log (c w); out := Raised e |}
  end.
Proof. reflexivity. Qed.

(** An invocation whose entry print raises ends there. *)
Lemma perform_web_goal_not_entered (user_goal : string) (w : W) (e : exn) :
  out (entry_print self user_goal w) = Raised e ->
  perform_web_goal self user_goal w =
  {| final := final (entry_print self user_goal w);
     log := [EPrint (MsgReceived user_goal)];
     out := Raised e |}.
Proof.
  unfold entry_print. intros He. rewrite try_body_is_pipeline.
  unfold bind at 1. cbv beta zeta. rewrite He. reflexivity.
Qed.

(** An invocation whose entry print returns is the body of the [try], the
    cleanup, and the exit print when neither raised. *)
Lemma perform_web_goal_entered (user_goal : string) (w : W) :
  out (entry_print self user_goal w) = Returned tt ->
  let body := try_body self user_goal w in
  let closing := close_browser self (final body) in
  perform_web_goal self user_goal w =
  match closing.2 with
  | Raised f =>
      {| final := closing.1;
         log := EPrint (MsgReceived user_goal) :: log body ++ [ECloseBrowser];
         out := Raised f |}
  | Returned _ =>
      match out body with
      | Raised e =>
          {| final := closing.1;
             log := EPrint (MsgReceived user_goal) :: log body ++ [ECloseBrowser];
             out := Raised e |}
      | Returned _ =>
          let printed := console self (MsgFinished user_goal) closing.1 in
          {| final := printed.1;
             log := EPrint (MsgReceived user_goal) :: log body
                    ++ [ECloseBrowser; EPrint (MsgFinished user_goal)];
             out := printed.2 |}
      end
  end.
Proof.
  unfold try_body, entry_print. intros He. cbv zeta. rewrite try_body_is_pipeline.
  unfold bind at 1. cbv beta zeta. rewrite He.
  change (log (console_print self (MsgReceived user_goal) w))
    with [EPrint (Obj := Obj) (MsgReceived user_goal)].
  generalize (final (console_print self (MsgReceived user_goal) w)). intros w0.
  unfold bind, try_finally, cleanup, console_print, call. cbv beta zeta.
  cbn [final log out].
  destruct (pipeline self user_goal w0) as [w1 l1 o1]; cbn [final log out].
  destruct (close_browser self w1) as [w2 [[]|f]]; cbn [fst snd final log out];
    destruct o1 as [[]|e1]; cbn [final log out]; norm_app; reflexivity.
Qed.

(** The body of the [try], step by step. *)
Lemma pipeline_run (user_goal : string) (w : W) :
  let p := planning self user_goal w in
  pipeline self user_goal w =
  match out p with
  | Raised e => {| final := final p; log := log p; out := Raised e |}
  | Returned plan =>
      let q := console_print self (MsgPlan plan) (final p) in
      match out q with
      | Raised e =>
          {| final := final q;
             log := log p ++ [EPrint (MsgPlan plan)];
             out := Raised e |}
      | Returned _ =>
          let x := executing self user_goal plan (final q) in
          match out x with
          | Raised e =>
              {| final := final x;
                 log := log p ++ EPrint (MsgPlan plan) :: log x;
                 out := Raised e |}
          | Returned _ =>
              let s := summarizing self user_goal (final x) in
              {| final := final s;
                 log := log p ++ EPrint (MsgPlan plan) :: log x ++ log s;
                 out := out s |}
          end
      end
  end.
Proof.
  cbv zeta. unfold pipeline. rewrite bind_run.
  destruct (planning self user_goal w) as [w1 l1 [plan|e]]; cbn [final log out];
    [|reflexivity].
  rewrite bind_run.
  change (log (console_print self (MsgPlan plan) w1))
    with [EPrint (Obj := Obj) (MsgPlan plan)].
  destruct (out (console_print self (MsgPlan plan) w1)) as [[]|e];
    cbn [final log out]; [|reflexivity].
  generalize (final (console_print self (MsgPlan plan) w1)). intros w2.
  rewrite bind_run.
  destruct (executing self user_goal plan w2) as [w3 l3 [[]|e]]; cbn [final log out];
    reflexivity.
Qed.

(** The log of the body of the [try] when a state raises or all return. *)
Lemma try_body_log (user_goal : string) (w : W) :
  let p := planned self user_goal w in
  log (try_body self user_goal w) =
  log p ++
  match out p with
  | Raised _ => []
  | Returned plan =>
      EPrint (MsgPlan plan) ::
      match out (plan_print self user_goal w plan) with
      | Raised _ => []
      | Returned _ =>
          ENavigateAndLearn user_goal plan ::
          match out (executed self user_goal w plan) with
          | Raised _ => []
          | Returned _ =>
              log (summarizing self user_goal (final (executed self user_goal w plan)))
          end
      end
  end.
Proof.
  cbv zeta. unfold try_body, executed, plan_print, planned.
  rewrite pipeline_run. cbv zeta.
  destruct (planning self user_goal _) as [w1 l1 [plan|e]]; cbn [final log out];
    [|now rewrite app_nil_r].
  destruct (console_print self (MsgPlan plan) w1) as [w2 l2 [[]|e]];
    cbn [final log out]; [|reflexivity].
  assert (Hxl : log (executing self user_goal plan w2) = [ENavigateAndLearn user_goal plan])
    by reflexivity.
  destruct (executing self user_goal plan w2) as [w3 l3 [[]|e]];
    cbn [final log out] in *; subst l3; reflexivity.
Qed.

(** When a state raises, the body of the [try] raises, and was entered. *)
Lemma state_raise_is_body_raise (user_goal : string) (w : W) (e : exn) :
  raises_in_planning self user_goal w e
  \/ raises_in_executing self user_goal w e
  \/ raises_in_summarizing self user_goal w e ->
  out (entry_print self user_goal w) = Returned tt
  /\ out (try_body self user_goal w) = Raised e.
Proof.
  unfold raises_in_planning, raises_in_executing, raises_in_summarizing.
  unfold try_body, executed, plan_print, planned.
  rewrite pipeline_run. cbv zeta.
  intros [(He & Hp)|[(plan & He & Hp & Hq & Hx)|(plan & He & Hp & Hq & Hx & Hs)]];
    (split; [exact He|]); rewrite Hp; cbn [final log out]; [reflexivity| |];
    rewrite Hq; cbn [final log out]; rewrite Hx; cbn [final log out];
    [reflexivity | exact Hs].
Qed.

(** What the caller observes once the [try] is entered: the outcome of
    the body when the cleanup call returns and the body raised, the
    exception of the cleanup call when it raises. *)
Lemma perform_web_goal_out (user_goal : string) (w : W) (e : exn) :
  out (entry_print self user_goal w) = Returned tt ->
  out (try_body self user_goal w) = Raised e ->
  out (perform_web_goal self user_goal w) =
  match cleanup_outcome self user_goal w with
  | Returned _ => Raised e
  | Raised f => Raised f
  end
  /\ log (perform_web_goal self user_goal w)
     = EPrint (MsgReceived user_goal) :: log (try_body self user_goal w)
       ++ [ECloseBrowser].
Proof.
  intros He Hb. rewrite (perform_web_goal_entered user_goal w He). cbv zeta.
  unfold cleanup_outcome. rewrite Hb.
  destruct (close_browser self _).2 as [[]|f]; split; reflexivity.
Qed.

(** The log of an invocation that entered the [try]. *)
Lemma perform_web_goal_log (user_goal : string) (w : W) :
  out (entry_print self user_goal w) = Returned tt ->
  exists tail,
    log (perform_web_goal self user_goal w)
    = EPrint (MsgReceived user_goal) :: log (try_body self user_goal w)
      ++ ECloseBrowser :: tail
    /\ (tail = [] \/ tail = [EPrint (MsgFinished user_goal)]).
Proof.
  intros He. rewrite (perform_web_goal_entered user_goal w He). cbv zeta.
  destruct (close_browser self _).2 as [[]|f];
    [destruct (out (try_body self user_goal w)) as [[]|e]|]; cbn [log].
  - exists [EPrint (MsgFinished user_goal)]. split; [reflexivity | now right].
  - exists []. split; [reflexivity | now left].
  - exists []. split; [reflexivity | now left].
Qed.

(** *** The cleanup guarantee *)

(** C1, as amended.  In every invocation that enters the [try]
    statement, that is, whose entry print (line 63) returns,
    [close_browser] is called exactly once, whichever of PLANNING,
    EXECUTING, SUMMARIZING and the prints between them returns or raises;
    it is called after everything the body of the [try] did, and only the
    exit print can follow it.  When the close call returns, the invocation
    ends with the session closed, for any notion of an open session that
    a returning [close_browser] closes and the exit print does not
    touch. *)
Theorem close_browser_exactly_once (user_goal : string) (w : W) :
  out (entry_print self user_goal w) = Returned tt ->
  let r := perform_web_goal self user_goal w in
  count is_close (log r) = 1
  /\ (exists after,
        log r = (EPrint (MsgReceived user_goal) :: log (try_body self user_goal w))
                ++ ECloseBrowser :: after
        /\ count is_close
             (EPrint (MsgReceived user_goal) :: log (try_body self user_goal w)) = 0
        /\ (after = [] \/ after = [EPrint (MsgFinished user_goal)]))
  /\ (forall is_open : W -> bool,
        (forall w1, (close_browser self w1).2 = Returned tt ->
                    is_open (close_browser self w1).1 = false) ->
        (forall w1, is_open (console self (MsgFinished user_goal) w1).1 = is_open w1) ->
        cleanup_outcome self user_goal w = Returned tt ->
        is_open (final r) = false).
Proof.
  intros He. cbv zeta.
  assert (Hq : count is_close
                 (EPrint (MsgReceived user_goal) :: log (try_body self user_goal w)) = 0).
  { rewrite count_cons. cbn [is_close]. apply (pipeline_keeps_browser user_goal). }
  split; [|split].
  - destruct (perform_web_goal_log user_goal w He) as (tail & -> & Ht).
    change (EPrint (MsgReceived user_goal) :: ?l ++ ?t)
      with ((EPrint (MsgReceived user_goal) :: l) ++ t).
    rewrite count_app, Hq, count_cons.
    destruct Ht as [-> | ->]; reflexivity.
  - destruct (perform_web_goal_log user_goal w He) as (tail & -> & Ht).
    exists tail. split; [reflexivity|]. split; [exact Hq | exact Ht].
  - intros is_open Hclose Hprint Hc.
    rewrite (perform_web_goal_entered user_goal w He). cbv zeta.
    unfold cleanup_outcome in Hc. rewrite Hc.
    destruct (out (try_body self user_goal w)) as [[]|e]; cbn [final].
    + rewrite Hprint. now apply Hclose.
    + now apply Hclose.
Qed.

(** *** Sequencing *)

Lemma closing_part_counts (p : event Obj -> bool) (user_goal : string)
    (tail : list (event Obj)) :
  p ECloseBrowser = false -> p (EPrint (MsgFinished user_goal)) = false ->
  tail = [] \/ tail = [EPrint (MsgFinished user_goal)] ->
  count p (ECloseBrowser :: tail) = 0.
Proof.
  intros Hc Hf [-> | ->]; unfold count; simpl; rewrite ?Hc, ?Hf; reflexivity.
Qed.

Lemma summarizing_makes_no_navigation (user_goal : string) :
  makes_no is_navigate (summarizing self user_goal).
Proof. unfold summarizing, summarize_results. quiet. Qed.

(** C3. The states run in order and fail fast.  If PLANNING raises,
    neither [navigate_and_learn] nor any call of [summarize_results] is
    made, and if EXECUTING raises, no call of [summarize_results] is made.
    The calls of an invocation that entered the [try] are those of
    PLANNING, then those of EXECUTING, then those of SUMMARIZING, then the
    cleanup; an invocation whose entry print raises makes no call after
    it. *)
Theorem fail_fast_sequencing (user_goal : string) (w : W) (e : exn) :
  let r := perform_web_goal self user_goal w in
  (raises_in_planning self user_goal w e ->
     count is_navigate (log r) = 0 /\ count is_summarize (log r) = 0)
  /\ (raises_in_executing self user_goal w e -> count is_summarize (log r) = 0)
  /\ (out (entry_print self user_goal w) = Returned tt ->
      exists exec_part sum_part closing_part,
        log r = EPrint (MsgReceived user_goal) :: log (planned self user_goal w)
                ++ exec_part ++ sum_part ++ closing_part
        /\ count is_summarize exec_part = 0
        /\ count is_navigate sum_part = 0
        /\ count is_navigate closing_part = 0
        /\ count is_summarize closing_part = 0)
  /\ (forall e', out (entry_print self user_goal w) = Raised e' ->
                 log r = [EPrint (MsgReceived user_goal)]).
Proof.
  cbv zeta.
  destruct (planning_makes_only_planning_calls user_goal) as (_ & Hpn & Hps).
  specialize (Hpn (final (entry_print self user_goal w))).
  specialize (Hps (final (entry_print self user_goal w))).
  fold (planned self user_goal w) in Hpn, Hps.
  split; [|split; [|split]].
  - intros H. pose proof H as (He & Hp).
    destruct (state_raise_is_body_raise user_goal w e (or_introl H)) as (_ & Hb).
    destruct (perform_web_goal_out user_goal w e He Hb) as (_ & ->).
    rewrite try_body_log. cbv zeta. rewrite Hp, app_nil_r.
    rewrite !count_cons, !count_app, Hpn, Hps. split; reflexivity.
  - intros H. pose proof H as (plan & He & Hp & Hq & Hx).
    destruct (state_raise_is_body_raise user_goal w e (or_intror (or_introl H)))
      as (_ & Hb).
    destruct (perform_web_goal_out user_goal w e He Hb) as (_ & ->).
    rewrite try_body_log. cbv zeta. rewrite Hp, Hq, Hx.
    rewrite !count_cons, !count_app, Hps, !count_cons. reflexivity.
  - intros He. destruct (perform_web_goal_log user_goal w He) as (tail & -> & Ht).
    rewrite try_body_log. cbv zeta.
    destruct (out (planned self user_goal w)) as [plan|e1].
    + destruct (out (plan_print self user_goal w plan)) as [[]|e2].
      * destruct (out (executed self user_goal w plan)) as [[]|e3].
        -- exists [EPrint (MsgPlan plan); ENavigateAndLearn user_goal plan],
                  (log (summarizing self user_goal
                          (final (executed self user_goal w plan)))),
                  (ECloseBrowser :: tail).
           split; [norm_app; reflexivity|]. split; [reflexivity|].
           split; [apply summarizing_makes_no_navigation|].
           split; now apply (closing_part_counts _ user_goal).
        -- exists [EPrint (MsgPlan plan); ENavigateAndLearn user_goal plan], [],
                  (ECloseBrowser :: tail).
           split; [norm_app; reflexivity|]. split; [reflexivity|].
           split; [reflexivity|]. split; now apply (closing_part_counts _ user_goal).
      * exists [EPrint (MsgPlan plan)], [], (ECloseBrowser :: tail).
        split; [norm_app; reflexivity|]. split; [reflexivity|].
        split; [reflexivity|]. split; now apply (closing_part_counts _ user_goal).
    + exists [], [], (ECloseBrowser :: tail).
      split; [norm_app; reflexivity|]. split; [reflexivity|].
      split; [reflexivity|]. split; now apply (closing_part_counts _ user_goal).
  - intros e' He. now rewrite (perform_web_goal_not_entered user_goal w e' He).
Qed.

(** *** Errors *)

(** C2, as amended.  When PLANNING, EXECUTING or SUMMARIZING raises [e],
    the caller observes [e] if the cleanup call returns, and observes the
    exception of the cleanup call if that call raises. *)
Theorem error_after_cleanup (user_goal : string) (w : W) (e : exn) :
  raises_in_planning self user_goal w e
  \/ raises_in_executing self user_goal w e
  \/ raises_in_summarizing self user_goal w e ->
  out (perform_web_goal self user_goal w) =
  match cleanup_outcome self user_goal w with
  | Returned _ => Raised e
  | Raised f => Raised f
  end.
Proof.
  intros H. apply state_raise_is_body_raise in H as (He & Hb).
  exact (proj1 (perform_web_goal_out user_goal w e He Hb)).
Qed.

(** C4, as amended.  When a call of PLANNING or EXECUTING raises [e] and
    the cleanup call returns, the caller observes [e] itself, and the
    close call is the last call of the invocation: it comes after the
    calls of the pipeline up to the failure, and nothing follows it. *)
Theorem planning_or_executing_error_propagates (user_goal : string) (w : W) (e : exn) :
  raises_in_planning self user_goal w e \/ raises_in_executing self user_goal w e ->
  cleanup_outcome self user_goal w = Returned tt ->
  let r := perform_web_goal self user_goal w in
  out r = Raised e
  /\ log r = EPrint (MsgReceived user_goal) :: log (try_body self user_goal w)
             ++ [ECloseBrowser].
Proof.
  intros H Hc. cbv zeta.
  assert (H' : raises_in_planning self user_goal w e
               \/ raises_in_executing self user_goal w e
               \/ raises_in_summarizing self user_goal w e) by tauto.
  apply state_raise_is_body_raise in H' as (He & Hb).
  destruct (perform_web_goal_out user_goal w e He Hb) as (Ho & Hl).
  split; [|exact Hl]. now rewrite Ho, Hc.
Qed.

(** *** The plan *)

Lemma filter_none {l : list (event Obj)} (p : event Obj -> bool) :
  count p l = 0 -> List.filter p l = [].
Proof. unfold count. apply length_zero_iff_nil. Qed.

(** C9. In every invocation in which PLANNING returns a plan and EXECUTING
    is reached, [navigate_and_learn] is called exactly once, with the goal
    and that very plan; and whatever the invocation does, a call to
    [navigate_and_learn] that it makes carries the goal and the plan that
    PLANNING returned. *)
Theorem plan_passed_unmodified (user_goal : string) (w : W) :
  let r := perform_web_goal self user_goal w in
  (forall plan,
     out (entry_print self user_goal w) = Returned tt ->
     out (planned self user_goal w) = Returned plan ->
     out (plan_print self user_goal w plan) = Returned tt ->
     List.filter is_navigate (log r) = [ENavigateAndLearn user_goal plan]
     /\ out (executed self user_goal w plan)
        = (navigate_and_learn self user_goal plan
             (final (plan_print self user_goal w plan))).2)
  /\ (forall goal' plan',
        In (ENavigateAndLearn goal' plan') (log r) ->
        goal' = user_goal
        /\ out (planned self user_goal w) = Returned plan'
        /\ List.filter is_navigate (log r) = [ENavigateAndLearn user_goal plan']).
Proof.
  cbv zeta.
  destruct (planning_makes_only_planning_calls user_goal) as (_ & Hpn & _).
  specialize (Hpn (final (entry_print self user_goal w))).
  fold (planned self user_goal w) in Hpn.
  pose proof (summarizing_makes_no_navigation user_goal) as Hsn.
  assert (Hfilter : forall plan,
            out (entry_print self user_goal w) = Returned tt ->
            out (planned self user_goal w) = Returned plan ->
            out (plan_print self user_goal w plan) = Returned tt ->
            List.filter is_navigate (log (perform_web_goal self user_goal w))
            = [ENavigateAndLearn user_goal plan]).
  { intros plan He Hp Hq.
    destruct (perform_web_goal_log user_goal w He) as (tail & -> & Ht).
    rewrite try_body_log. cbv zeta. rewrite Hp, Hq.
    repeat first [ rewrite List.filter_app
                 | progress cbn [List.filter is_navigate app] ].
    rewrite (filter_none is_navigate Hpn).
    assert (Hrest : List.filter is_navigate
                      match out (executed self user_goal w plan) with
                      | Returned _ =>
                          log (summarizing self user_goal
                                 (final (executed self user_goal w plan)))
                      | Raised _ => []
                      end = []).
    { destruct (out (executed self user_goal w plan)); [|reflexivity].
      apply filter_none, Hsn. }
    rewrite Hrest.
    destruct Ht as [-> | ->]; reflexivity. }
  split.
  - intros plan He Hp Hq. split; [now apply Hfilter | reflexivity].
  - intros goal' plan' Hin.
    destruct (out (entry_print self user_goal w)) as [[]|e0] eqn:He.
    2:{ rewrite (perform_web_goal_not_entered user_goal w e0 He) in Hin.
        cbn [log] in Hin. destruct Hin as [Hin|[]]. discriminate Hin. }
    assert (Hmem : In (ENavigateAndLearn goal' plan')
                      (List.filter is_navigate
                         (log (perform_web_goal self user_goal w)))).
    { apply List.filter_In. split; [exact Hin | reflexivity]. }
    destruct (out (planned self user_goal w)) as [plan|e1] eqn:Hp.
    + destruct (out (plan_print self user_goal w plan)) as [[]|e2] eqn:Hq.
      * rewrite (Hfilter plan eq_refl eq_refl Hq) in Hmem.
        destruct Hmem as [[= <- <-]|[]].
        split; [reflexivity|]. split; [reflexivity|].
        now apply Hfilter.
      * exfalso. revert Hmem.
        destruct (perform_web_goal_log user_goal w He) as (tail & -> & Ht).
        rewrite try_body_log. cbv zeta. rewrite Hp, Hq.
        repeat first [ rewrite List.filter_app
                     | progress cbn [List.filter is_navigate app] ].
        rewrite (filter_none is_navigate Hpn).
        destruct Ht as [-> | ->]; cbn; tauto.
    + exfalso. revert Hmem.
      destruct (perform_web_goal_log user_goal w He) as (tail & -> & Ht).
      rewrite try_body_log. cbv zeta. rewrite Hp.
      repeat first [ rewrite List.filter_app
                   | progress cbn [List.filter is_navigate app] ].
      rewrite (filter_none is_navigate Hpn).
      destruct Ht as [-> | ->]; cbn; tauto.
Qed.

(** C7. [api_search] makes one call, [search_memory(query, top_k=5)], and
    its outcome is the outcome of that call: the records it returns, as
    they are, or the exception it raises. *)
Theorem api_search_delegates (query : string) (w : W) :
  let r := api_search self query w in
  log r = [ESearchMemory query 5]
  /\ out r = (search_memory self query 5 w).2
  /\ final r = (search_memory self query 5 w).1.
Proof. cbv zeta. unfold api_search, call. cbn [final log out]. auto. Qed.

End PipelineProperties.

(** ** The context block of [summarize_results] *)

Lemma append_empty_r (s : string) : s +:+ "" = s.
Proof.
  induction s as [|ch s IH]; [reflexivity|].
  change (String ch (s +:+ "") = String ch s). now f_equal.
Qed.

Lemma concat_cons (x : string) (l : list string) :
  String.concat "" (x :: l) = x +:+ String.concat "" l.
Proof.
  destruct l as [|y l]; simpl.
  - now rewrite append_empty_r.
  - reflexivity.
Qed.

(** On a well-formed record the condition of the comprehension returns,
    and says whether the record's type is ['api_request']. *)
Lemma is_api_request_well_formed (m : pyval) :
  well_formed_record m = true ->
  is_api_request m = Returned (has_api_request_type m).
Proof.
  destruct m as [| | | |items]; try discriminate.
  unfold well_formed_record, is_api_request, has_api_request_type, py_get.
  cbn [obind].
  destruct (dict_lookup "metadata" items) as [[| | | |metadata]|];
    try discriminate; intros _; cbn [obind py_get dict_lookup].
  - destruct (dict_lookup "type" metadata) as [[]|]; reflexivity.
  - reflexivity.
Qed.

Lemma comprehension_well_formed (memories : list pyval) :
  forallb well_formed_record memories = true ->
  comprehension is_api_request memories
    = Returned (List.filter has_api_request_type memories).
Proof.
  induction memories as [|m rest IH]; [reflexivity|].
  cbn [forallb comprehension List.filter].
  intros [Hm Hrest]%andb_true_iff.
  rewrite (is_api_request_well_formed m Hm), (IH Hrest). reflexivity.
Qed.

Lemma filter_well_formed (p : pyval -> bool) (memories : list pyval) :
  forallb well_formed_record memories = true ->
  forallb well_formed_record (List.filter p memories) = true.
Proof.
  induction memories as [|m rest IH]; [reflexivity|].
  cbn [forallb List.filter]. intros [Hm Hrest]%andb_true_iff.
  destruct (p m); cbn [forallb]; rewrite ?Hm; auto.
Qed.

Lemma excerpt_line_well_formed (i : nat) (api : pyval) :
  well_formed_record api = true ->
  excerpt_line i api = Returned (numbered_excerpt i api).
Proof.
  destruct api as [| | | |items]; try discriminate.
  unfold well_formed_record, excerpt_line, numbered_excerpt, record_text, py_get.
  rewrite Nat.add_1_r. cbn [obind].
  intros [_ Ht]%andb_true_iff.
  destruct (dict_lookup "text" items) as [[]|]; try discriminate; reflexivity.
Qed.

Lemma excerpt_loop_well_formed (api_memories : list pyval) (i : nat) (api_info : string) :
  forallb well_formed_record api_memories = true ->
  excerpt_loop i api_memories api_info
    = Returned (api_info +:+
                String.concat "" (imap (fun j => numbered_excerpt (i + j)) api_memories)).
Proof.
  revert i api_info. induction api_memories as [|api rest IH]; intros i api_info.
  - intros _. cbn. now rewrite append_empty_r.
  - cbn [forallb excerpt_loop imap]. intros [Hm Hrest]%andb_true_iff.
    rewrite (excerpt_line_well_formed i api Hm). cbn [obind].
    rewrite (IH (S i) _ Hrest), concat_cons, append_assoc, Nat.add_0_r.
    rewrite (imap_ext (compose (fun j => numbered_excerpt (i + j)) S)
                      (fun j => numbered_excerpt (S i + j)) rest); [reflexivity|].
    intros j x _. cbn. now rewrite Nat.add_succ_r.
Qed.

(** On well-formed records the code builds the context block of the
    specification and does not raise. *)
Lemma context_block_well_formed (memories : list pyval) :
  forallb well_formed_record memories = true ->
  comprehension is_api_request memories
    = Returned (List.filter has_api_request_type memories)
  /\ format_api_info (List.filter has_api_request_type memories)
     = Returned (spec_context_block memories)
  /\ context_block memories = Returned (spec_context_block memories).
Proof.
  intros Hwf.
  pose proof (comprehension_well_formed memories Hwf) as Hc.
  assert (Hf : format_api_info (List.filter has_api_request_type memories)
               = Returned (spec_context_block memories)).
  { unfold format_api_info, spec_context_block.
    pose proof (filter_well_formed has_api_request_type memories Hwf) as Hk.
    destruct (List.filter has_api_request_type memories) as [|api kept]; [reflexivity|].
    now rewrite (excerpt_loop_well_formed _ 0 _ Hk). }
  split; [exact Hc|]. split; [exact Hf|].
  unfold context_block. rewrite Hc. exact Hf.
Qed.

(** The scenario of section 8: of the three records, the two of type
    ['api_request'] are excerpted, numbered 1 and 2. *)
Example pricing_scenario :
  context_block pricing_memories
  = Returned ("APIs discovered:" +:+ newline
              +:+ "1. GET /api/v1/pricing..." +:+ newline
              +:+ "2. POST /api/v1/quote..." +:+ newline).
Proof. reflexivity. Qed.

(** A record whose ['metadata'] is present but is not a dictionary is
    outside the data model: the comprehension raises on it. *)
Example metadata_none_raises :
  context_block [VDict [("text", VStr "x"); ("metadata", VNone)]]
  = Raised AttributeError.
Proof. reflexivity. Qed.

Section SummaryProperties.

Context {W Obj : Type} (self : collaborators W Obj).

(** [summarize_results] when the search returns well-formed records: two
    calls, the second with the prompt built from the context block. *)
Lemma summarize_results_run (user_goal : string) (w : W) (memories : list pyval) :
  (search_memory self user_goal 10 w).2 = Returned memories ->
  forallb well_formed_record memories = true ->
  let w1 := (search_memory self user_goal 10 w).1 in
  let prompt := build_prompt user_goal (spec_context_block memories) in
  summarize_results self user_goal w =
  {| final := (generate_text self prompt "general" w1).1;
     log := [ESearchMemory user_goal 10; EGenerateText (Obj := Obj) prompt "general"];
     out := try! response := (generate_text self prompt "general" w1).2 in
            py_get response "response" (VStr "No summary available.") |}.
Proof.
  intros Hs Hwf. cbv zeta.
  destruct (context_block_well_formed memories Hwf) as (Hc & Hf & _).
  unfold summarize_results, bind, call, lift. cbv beta zeta. cbn [final log out].
  rewrite Hs. cbn [final log out]. rewrite Hc. cbn [final log out].
  rewrite Hf. cbn [final log out app].
  destruct (generate_text self _ "general" _) as [w2 [response|e]];
    cbn [fst snd obind]; reflexivity.
Qed.

(** C5. When the memory search returns records of the data model (none
    at all included) and the inference client returns a response mapping,
    [summarize_results] returns a string and does not raise: the fallback
    text when the response has no ['response'] key, and the value under
    that key, as it is, when it has one. *)
Theorem summarize_results_returns_string (user_goal : string) (w : W)
    (memories : list pyval) (response : pyval) :
  (search_memory self user_goal 10 w).2 = Returned memories ->
  forallb well_formed_record memories = true ->
  (generate_text self (build_prompt user_goal (spec_context_block memories)) "general"
                 (search_memory self user_goal 10 w).1).2 = Returned response ->
  well_formed_response response = true ->
  exists items s,
    response = VDict items
    /\ out (summarize_results self user_goal w) = Returned (VStr s)
    /\ (dict_lookup "response" items = None -> s = "No summary available.")
    /\ (forall v, dict_lookup "response" items = Some v -> v = VStr s).
Proof.
  intros Hs Hwf Hg Hr.
  rewrite (summarize_results_run user_goal w memories Hs Hwf). cbv zeta. cbn [out].
  rewrite Hg. cbn [obind].
  destruct response as [| | | |items]; try discriminate.
  unfold well_formed_response in Hr. unfold py_get.
  destruct (dict_lookup "response" items) as [[| | |s|]|] eqn:Hl; try discriminate.
  - exists items, s. rewrite Hl. split; [reflexivity|]. split; [reflexivity|].
    split; [intros H; discriminate H | intros v H; now injection H as <-].
  - exists items, "No summary available.". rewrite Hl. split; [reflexivity|].
    split; [reflexivity|]. split; [reflexivity | intros v H; discriminate H].
Qed.

(** C6. [summarize_results] searches the memory with the goal and
    [top_k = 10], keeps the records whose metadata type is
    ['api_request'], in result order, and sends a prompt whose context
    block numbers them from 1, each with the first 200 characters of its
    text; with no such record the block is empty and the prompt is sent
    all the same. *)
Theorem context_block_from_api_requests (user_goal : string) (w : W)
    (memories : list pyval) :
  (search_memory self user_goal 10 w).2 = Returned memories ->
  forallb well_formed_record memories = true ->
  let kept := List.filter has_api_request_type memories in
  comprehension is_api_request memories = Returned kept
  /\ format_api_info kept = Returned (spec_context_block memories)
  /\ log (summarize_results self user_goal w)
     = [ESearchMemory user_goal 10;
        EGenerateText (build_prompt user_goal (spec_context_block memories)) "general"]
  /\ (kept = [] -> spec_context_block memories = "")
  /\ (forall i m, kept !! i = Some m ->
        imap numbered_excerpt kept !! i
        = Some (str_of_nat (i + 1) +:+ ". " +:+ substring 0 200 (record_text m)
                +:+ "..." +:+ newline)
        /\ String.length (substring 0 200 (record_text m))
           = Nat.min 200 (String.length (record_text m))
        /\ exists rest, record_text m = substring 0 200 (record_text m) +:+ rest).
Proof.
  intros Hs Hwf. cbv zeta.
  destruct (context_block_well_formed memories Hwf) as (Hc & Hf & _).
  split; [exact Hc|]. split; [exact Hf|]. split; [|split].
  - now rewrite (summarize_results_run user_goal w memories Hs Hwf).
  - unfold spec_context_block. now intros ->.
  - intros i m Hi. split; [|split].
    + rewrite list_lookup_imap, Hi. unfold numbered_excerpt.
      now rewrite Nat.add_1_r.
    + apply substring_prefix_length.
    + apply substring_is_prefix.
Qed.

End SummaryProperties.

(** ** Construction *)

Lemma alloc_spec (o : object) (h h' : gmap loc object) (l : loc) :
  alloc o h = (l, h') -> h !! l = None /\ h' = <[l := o]> h.
Proof.
  unfold alloc. intros [= <- <-]. split; [|reflexivity].
  apply not_elem_of_dom, is_fresh.
Qed.

(** An allocation leaves the objects of the heap as they were. *)
Lemma alloc_keeps (o : object) (h h' : gmap loc object) (l l' : loc) (x : object) :
  alloc o h = (l, h') -> h !! l' = Some x -> h' !! l' = Some x.
Proof.
  intros [Hf ->]%alloc_spec Hl.
  rewrite lookup_insert_ne; [exact Hl | congruence].
Qed.

(** An object of the heap after an allocation is the new one or was there. *)
Lemma alloc_inv (o : object) (h h' : gmap loc object) (l l' : loc) (x : object) :
  alloc o h = (l, h') -> h' !! l' = Some x -> (l' = l /\ x = o) \/ h !! l' = Some x.
Proof.
  intros [Hf ->]%alloc_spec Hl.
  destruct (decide (l = l')) as [<-|Hne].
  - rewrite lookup_insert_eq in Hl. left. split; congruence.
  - rewrite lookup_insert_ne in Hl by exact Hne. now right.
Qed.

(** C8. The constructor builds a browser session manager only when none
    is supplied, and then a visible one ([headless = False]) at a new
    reference; a supplied manager is the one the engine holds.  In both
    cases the web navigator is built with the reference the engine holds,
    the objects that existed are left as they were, and no other browser
    session manager comes into being. *)
Theorem construction_shares_manager (client : loc) (manager : option loc)
    (h : gmap loc object) :
  let nav := (Navigator_init client manager h).1 in
  let h' := (Navigator_init client manager h).2 in
  h' !! web_navigator nav
    = Some (WebNavigator client (selenium_manager nav) "_get_db_session_for_navigator")
  /\ (forall l o, h !! l = Some o -> h' !! l = Some o)
  /\ match manager with
     | Some m =>
         selenium_manager nav = m
         /\ forall l b, h' !! l = Some (SeleniumManager b) ->
                        h !! l = Some (SeleniumManager b)
     | None =>
         h !! selenium_manager nav = None
         /\ h' !! selenium_manager nav = Some (SeleniumManager false)
         /\ forall l b, h' !! l = Some (SeleniumManager b) ->
                        l = selenium_manager nav \/ h !! l = Some (SeleniumManager b)
     end.
Proof.
  cbv zeta. unfold Navigator_init.
  destruct (match manager with
            | Some m => (m, h)
            | None => alloc (SeleniumManager false) h
            end) as [sm h1] eqn:E1.
  destruct (alloc (CodeAssistant client) h1) as [ca h2] eqn:E2.
  destruct (alloc (TaskPlanner client) h2) as [pl h3] eqn:E3.
  destruct (alloc (APIReverseEngineer client) h3) as [re h4] eqn:E4.
  destruct (alloc (SemanticIndexer client) h4) as [si h5] eqn:E5.
  destruct (alloc (WebNavigator client sm "_get_db_session_for_navigator") h5)
    as [wn h6] eqn:E6.
  cbn [fst snd web_navigator selenium_manager].
  assert (Hkeep : forall l o, h1 !! l = Some o -> h6 !! l = Some o).
  { intros l o Hl.
    eapply alloc_keeps; [exact E6|]. eapply alloc_keeps; [exact E5|].
    eapply alloc_keeps; [exact E4|]. eapply alloc_keeps; [exact E3|].
    eapply alloc_keeps; [exact E2|]. exact Hl. }
  assert (Hinv : forall l b, h6 !! l = Some (SeleniumManager b) ->
                             h1 !! l = Some (SeleniumManager b)).
  { intros l b Hl.
    destruct (alloc_inv _ _ _ _ _ _ E6 Hl) as [[_ [=]]|H5].
    destruct (alloc_inv _ _ _ _ _ _ E5 H5) as [[_ [=]]|H4].
    destruct (alloc_inv _ _ _ _ _ _ E4 H4) as [[_ [=]]|H3].
    destruct (alloc_inv _ _ _ _ _ _ E3 H3) as [[_ [=]]|H2].
    destruct (alloc_inv _ _ _ _ _ _ E2 H2) as [[_ [=]]|H1].
    exact H1. }
  split; [|split].
  - apply alloc_spec in E6 as [_ ->]. apply lookup_insert_eq.
  - intros l o Hl. apply Hkeep.
    destruct manager as [m|].
    + now injection E1 as <- <-.
    + eapply alloc_keeps; [exact E1 | exact Hl].
  - destruct manager as [m|].
    + injection E1 as <- <-. split; [reflexivity | exact Hinv].
    + pose proof (alloc_spec _ _ _ _ E1) as [Hf Hh1].
      split; [exact Hf|]. split.
      * apply Hkeep. rewrite Hh1. apply lookup_insert_eq.
      * intros l b Hl. apply Hinv in Hl.
        destruct (alloc_inv _ _ _ _ _ _ E1 Hl) as [[-> _]|H0]; [now left | now right].
Qed.

(** * The properties on scripted collaborators *)

(** C1: the claim as stated fails, in two ways.  When the goal holds a
    closing tag, the print of line 63 raises before the [try] is entered
    and [close_browser] is not called.  And when the close call itself
    raises without closing, it has been called once and the invocation
    ends, by that exception, with the session open. *)
Lemma browser_can_be_left_open :
  (let self := with_console markup_console all_well in
   let r := perform_web_goal self "open [/pricing]" true in
   out r = Raised markup_error
   /\ log r = [EPrint (MsgReceived "open [/pricing]")]
   /\ count is_close (log r) = 0
   /\ final r = true)
  /\ (let self := scripted (Returned "1. open the pricing page") (Returned tt)
                           (Raised driver_crashed) (Returned pricing_memories)
                           (Returned (VDict [])) in
      let r := perform_web_goal self "find the pricing API" false in
      out r = Raised driver_crashed
      /\ count is_close (log r) = 1
      /\ final r = true).
Proof. cbv zeta. repeat split. Qed.

Lemma close_browser_exactly_once_witness :
  out (entry_print all_well "find the pricing API" true) = Returned tt
  /\ count is_close (log (perform_web_goal all_well "find the pricing API" true)) = 1
  /\ final (perform_web_goal all_well "find the pricing API" true) = false.
Proof.
  split; [reflexivity|].
  pose proof (close_browser_exactly_once all_well "find the pricing API" true eq_refl)
    as H.
  cbv zeta in H. destruct H as (Hcount & _ & Hclosed).
  split; [exact Hcount|].
  apply (Hclosed (fun open : bool => open)).
  - intros w1 _. reflexivity.
  - intros w1. reflexivity.
  - reflexivity.
Defined.

(** C2: the claim as stated fails.  The planner raises, then the close
    call of the cleanup raises too: the caller observes the exception of
    the close call, not the one of the planner. *)
Lemma cleanup_error_masks_planner_error :
  let self := scripted (Raised planner_down) (Returned tt) (Raised driver_crashed)
                       (Returned []) (Returned (VDict [])) in
  raises_in_planning self "find the pricing API" true planner_down
  /\ cleanup_outcome self "find the pricing API" true = Raised driver_crashed
  /\ out (perform_web_goal self "find the pricing API" true) = Raised driver_crashed
  /\ out (perform_web_goal self "find the pricing API" true) <> Raised planner_down.
Proof.
  cbv zeta. repeat split; try reflexivity. vm_compute. discriminate.
Qed.

(** C4: the claim as stated fails.  The navigation raises, then the close
    call raises too: the exception that reaches the caller is not the one
    of the navigation. *)
Lemma cleanup_error_masks_navigation_error :
  let self := scripted (Returned "1. open the pricing page") (Raised navigation_failed)
                       (Raised driver_crashed) (Returned []) (Returned (VDict [])) in
  raises_in_executing self "find the pricing API" true navigation_failed
  /\ List.filter is_close (log (perform_web_goal self "find the pricing API" true))
     = [ECloseBrowser]
  /\ out (perform_web_goal self "find the pricing API" true) = Raised driver_crashed
  /\ out (perform_web_goal self "find the pricing API" true) <> Raised navigation_failed.
Proof.
  cbv zeta. split; [|split; [|split]].
  - exists "1. open the pricing page". repeat split.
  - reflexivity.
  - reflexivity.
  - vm_compute. discriminate.
Qed.

Lemma error_after_cleanup_witness :
  let self := scripted (Returned "1. open the pricing page") (Returned tt) (Returned tt)
                       (Returned pricing_memories) (Raised inference_down) in
  raises_in_summarizing self "find the pricing API" false inference_down
  /\ out (perform_web_goal self "find the pricing API" false) = Raised inference_down.
Proof.
  cbv zeta.
  assert (H : raises_in_summarizing
                (scripted (Returned "1. open the pricing page") (Returned tt) (Returned tt)
                          (Returned pricing_memories) (Raised inference_down))
                "find the pricing API" false inference_down).
  { exists "1. open the pricing page". repeat split. }
  split; [exact H|].
  exact (error_after_cleanup _ "find the pricing API" false inference_down
           (or_intror (or_intror H))).
Defined.

Lemma fail_fast_sequencing_witness :
  let self := scripted (Raised planner_down) (Returned tt) (Returned tt)
                       (Returned pricing_memories) (Returned (VDict [])) in
  raises_in_planning self "find the pricing API" false planner_down
  /\ count is_navigate (log (perform_web_goal self "find the pricing API" false)) = 0
  /\ count is_summarize (log (perform_web_goal self "find the pricing API" false)) = 0.
Proof.
  cbv zeta.
  assert (H : raises_in_planning
                (scripted (Raised planner_down) (Returned tt) (Returned tt)
                          (Returned pricing_memories) (Returned (VDict [])))
                "find the pricing API" false planner_down) by (split; reflexivity).
  split; [exact H|].
  exact (proj1 (fail_fast_sequencing _ "find the pricing API" false planner_down) H).
Defined.

Lemma planning_or_executing_error_propagates_witness :
  let self := scripted (Returned "1. open the pricing page") (Raised navigation_failed)
                       (Returned tt) (Returned []) (Returned (VDict [])) in
  raises_in_executing self "find the pricing API" false navigation_failed
  /\ cleanup_outcome self "find the pricing API" false = Returned tt
  /\ out (perform_web_goal self "find the pricing API" false) = Raised navigation_failed.
Proof.
  cbv zeta.
  assert (H : raises_in_executing
                (scripted (Returned "1. open the pricing page") (Raised navigation_failed)
                          (Returned tt) (Returned []) (Returned (VDict [])))
                "find the pricing API" false navigation_failed).
  { exists "1. open the pricing page". repeat split. }
  split; [exact H|]. split; [reflexivity|].
  exact (proj1 (planning_or_executing_error_propagates _ "find the pricing API" false
                  navigation_failed (or_intror H) eq_refl)).
Defined.

Lemma plan_passed_unmodified_witness :
  out (planned all_well "find the pricing API" false)
    = Returned "1. open the pricing page"
  /\ List.filter is_navigate (log (perform_web_goal all_well "find the pricing API" false))
     = [ENavigateAndLearn "find the pricing API" "1. open the pricing page"].
Proof.
  split; [reflexivity|].
  exact (proj1 (proj1 (plan_passed_unmodified all_well "find the pricing API" false)
                  "1. open the pricing page" eq_refl eq_refl eq_refl)).
Defined.

Lemma summarize_results_returns_string_witness :
  let self := scripted (Returned "plan") (Returned tt) (Returned tt)
                       (Returned []) (Returned (VDict [])) in
  (search_memory self "find the pricing API" 10 false).2 = Returned []
  /\ exists items s,
       VDict [] = VDict items
       /\ out (summarize_results self "find the pricing API" false) = Returned (VStr s)
       /\ (dict_lookup "response" items = None -> s = "No summary available.")
       /\ (forall v, dict_lookup "response" items = Some v -> v = VStr s).
Proof.
  cbv zeta. split; [reflexivity|].
  exact (summarize_results_returns_string
           (scripted (Returned "plan") (Returned tt) (Returned tt)
                     (Returned []) (Returned (VDict [])))
           "find the pricing API" false [] (VDict []) eq_refl eq_refl eq_refl eq_refl).
Defined.

Lemma context_block_from_api_requests_witness :
  forallb well_formed_record pricing_memories = true
  /\ log (summarize_results all_well "find the pricing API" false)
     = [ESearchMemory "find the pricing API" 10;
        EGenerateText
          (build_prompt "find the pricing API" (spec_context_block pricing_memories))
          "general"].
Proof.
  split; [reflexivity|].
  exact (proj1 (proj2 (proj2
           (context_block_from_api_requests all_well "find the pricing API" false
              pricing_memories eq_refl eq_refl)))).
Defined.

Lemma construction_shares_manager_witness :
  let h : gmap loc object := {[ 1%positive := OllamaClient ]} in
  selenium_manager (Navigator_init 1%positive None h).1 <> 1%positive
  /\ (Navigator_init 1%positive None h).2
       !! selenium_manager (Navigator_init 1%positive None h).1
     = Some (SeleniumManager false).
Proof.
  cbv zeta. split.
  - intros Heq.
    pose proof (proj1 (proj2 (proj2
      (construction_shares_manager 1%positive None {[ 1%positive := OllamaClient ]}))))
      as Hfresh.
    cbv zeta in Hfresh. rewrite Heq in Hfresh. vm_compute in Hfresh. discriminate Hfresh.
  - exact (proj1 (proj2 (proj2 (proj2
      (construction_shares_manager 1%positive None {[ 1%positive := OllamaClient ]}))))).
Defined.

(** * Further properties of the pipeline *)

Section InvocationProperties.

Context {W Obj : Type} (self : collaborators W Obj).

Ltac silent :=
  repeat first
    [ apply makes_no_bind; [|intros ?]
    | apply makes_no_call; reflexivity
    | apply makes_no_lift ].

Ltac flatten := repeat (rewrite <- app_assoc || rewrite <- app_comm_cons).

Lemma pipeline_makes_no_exit_print (user_goal : string) :
  makes_no is_exit_print (pipeline self user_goal).
Proof.
  unfold pipeline, planning, executing, summarizing, summarize_results, console_print.
  silent.
Qed.

(** X1. The exit print is made exactly when the entry print, the body of
    the [try] and the close call returned, and the invocation returns
    exactly when the exit print then returns too; an exception of the
    close call reaches the caller of an invocation that entered the
    [try], even when the body had returned. *)
Theorem exit_print_iff_returned (user_goal : string) (w : W) :
  let r := perform_web_goal self user_goal w in
  let all_returned :=
    out (entry_print self user_goal w) = Returned tt
    /\ out (try_body self user_goal w) = Returned tt
    /\ cleanup_outcome self user_goal w = Returned tt in
  (count is_exit_print (log r) = 1 <-> all_returned)
  /\ (count is_exit_print (log r) = 0 <-> ~ all_returned)
  /\ (out r = Returned tt <->
      all_returned
      /\ (console self (MsgFinished user_goal)
            (close_browser self (final (try_body self user_goal w))).1).2
         = Returned tt)
  /\ (forall f,
        out (entry_print self user_goal w) = Returned tt ->
        cleanup_outcome self user_goal w = Raised f -> out r = Raised f).
Proof.
  cbv zeta. unfold cleanup_outcome.
  pose proof (pipeline_makes_no_exit_print user_goal
                (final (entry_print self user_goal w))) as Hq.
  fold (try_body self user_goal w) in Hq.
  destruct (out (entry_print self user_goal w)) as [[]|e0] eqn:He.
  - rewrite (perform_web_goal_entered self user_goal w He). cbv zeta.
    destruct ((close_browser self (final (try_body self user_goal w))).2) as [[]|f];
      destruct (out (try_body self user_goal w)) as [[]|e] eqn:Ho; cbn [log out];
      rewrite ?count_cons, ?count_app, ?Hq, ?count_cons;
      cbn [is_exit_print count List.filter length Nat.add];
      intuition (try discriminate; try congruence).
  - rewrite (perform_web_goal_not_entered self user_goal w e0 He). cbn [log out].
    rewrite ?count_cons. cbn [is_exit_print count List.filter length Nat.add].
    intuition (try discriminate; try congruence).
Qed.

(** X2. When every step returns (the entry print, PLANNING, the print of
    the plan, EXECUTING, [summarize_results], the print of the summary,
    the close call and the exit print), the invocation returns after
    these calls and no other, in this order, each on the world the one
    before it left. *)
Theorem successful_invocation_trace (user_goal : string) (w : W) (plan : Obj)
    (summary : pyval) :
  out (entry_print self user_goal w) = Returned tt ->
  out (planned self user_goal w) = Returned plan ->
  out (plan_print self user_goal w plan) = Returned tt ->
  out (executed self user_goal w plan) = Returned tt ->
  let s := summarized self user_goal w plan in
  out s = Returned summary ->
  let printed := console self (MsgSummary summary) (final s) in
  printed.2 = Returned tt ->
  let closing := close_browser self printed.1 in
  closing.2 = Returned tt ->
  let finished := console self (MsgFinished user_goal) closing.1 in
  finished.2 = Returned tt ->
  let r := perform_web_goal self user_goal w in
  out r = Returned tt
  /\ final r = finished.1
  /\ log r = EPrint (MsgReceived user_goal) :: log (planned self user_goal w)
             ++ [EPrint (MsgPlan plan); ENavigateAndLearn user_goal plan]
             ++ log s
             ++ [EPrint (MsgSummary summary); ECloseBrowser;
                 EPrint (MsgFinished user_goal)].
Proof.
  cbv zeta. intros He Hp Hq Hx Hs Hps Hc Hf.
  assert (Hsum : summarizing self user_goal (final (executed self user_goal w plan))
                 = {| final := (console self (MsgSummary summary)
                                  (final (summarized self user_goal w plan))).1;
                      log := log (summarized self user_goal w plan)
                             ++ [EPrint (MsgSummary summary)];
                      out := Returned tt |}).
  { unfold summarizing. rewrite bind_run.
    fold (summarized self user_goal w plan). rewrite Hs.
    unfold console_print, call. cbn [final log out]. now rewrite Hps. }
  assert (Hbody : try_body self user_goal w
                  = {| final := (console self (MsgSummary summary)
                                   (final (summarized self user_goal w plan))).1;
                       log := log (planned self user_goal w)
                              ++ EPrint (MsgPlan plan)
                              :: [ENavigateAndLearn user_goal plan]
                              ++ log (summarized self user_goal w plan)
                              ++ [EPrint (MsgSummary summary)];
                       out := Returned tt |}).
  { unfold try_body. rewrite pipeline_run. cbv zeta.
    fold (planned self user_goal w). rewrite Hp.
    fold (plan_print self user_goal w plan). rewrite Hq.
    fold (executed self user_goal w plan). rewrite Hx, Hsum. reflexivity. }
  rewrite (perform_web_goal_entered self user_goal w He). cbv zeta.
  rewrite Hbody. cbn [final log out]. rewrite Hc.
  split; [exact Hf|]. split; [reflexivity|].
  cbn [log]. flatten. reflexivity.
Qed.

(** X3. PLANNING reads [current_url], [page_content] and [captured_apis], in
    this order, and calls the planner once, with the goal and the three
    values as they were read, on the world the reads left. *)
Theorem planner_receives_snapshot (user_goal : string) (w : W)
    (url content apis : Obj) :
  (current_url self w).2 = Returned url ->
  (page_content self (current_url self w).1).2 = Returned content ->
  (captured_apis self (page_content self (current_url self w).1).1).2
    = Returned apis ->
  let w3 := (captured_apis self (page_content self (current_url self w).1).1).1 in
  planning self user_goal w =
  {| final := (create_detailed_plan self user_goal url content apis w3).1;
     log := [EGetCurrentUrl; EGetPageContent; EGetCapturedApis;
             ECreateDetailedPlan user_goal url content apis];
     out := (create_detailed_plan self user_goal url content apis w3).2 |}.
Proof.
  intros Hu Hc Ha. cbv zeta.
  unfold planning, bind, call. cbv beta zeta. cbn [final log out].
  rewrite Hu. cbn [final log out]. rewrite Hc. cbn [final log out].
  rewrite Ha. cbn [final log out].
  destruct (create_detailed_plan self user_goal url content apis _) as [w4 [p|e]];
    reflexivity.
Qed.

(** X4. When one of the three reads of the navigation state raises,
    PLANNING raises that exception and the planner is not called in the
    invocation. *)
Theorem failed_read_skips_planner (user_goal : string) (w : W) (e : exn) :
  let w0 := final (entry_print self user_goal w) in
  (current_url self w0).2 = Raised e
  \/ (exists url,
        (current_url self w0).2 = Returned url
        /\ (page_content self (current_url self w0).1).2 = Raised e)
  \/ (exists url content,
        (current_url self w0).2 = Returned url
        /\ (page_content self (current_url self w0).1).2 = Returned content
        /\ (captured_apis self (page_content self (current_url self w0).1).1).2
           = Raised e) ->
  out (planned self user_goal w) = Raised e
  /\ count is_plan (log (perform_web_goal self user_goal w)) = 0
  /\ (out (entry_print self user_goal w) = Returned tt ->
      raises_in_planning self user_goal w e).
Proof.
  cbv zeta. intros H.
  assert (Hp : out (planned self user_goal w) = Raised e
               /\ count is_plan (log (planned self user_goal w)) = 0).
  { unfold planned, planning. generalize (final (entry_print self user_goal w)) H.
    clear H. intros w0 H.
    unfold bind, call. cbv beta zeta. cbn [final log out].
    destruct H as [Hu|[(url & Hu & Hc)|(url & content & Hu & Hc & Ha)]].
    - rewrite Hu. split; reflexivity.
    - rewrite Hu. cbn [final log out]. rewrite Hc. split; reflexivity.
    - rewrite Hu. cbn [final log out]. rewrite Hc. cbn [final log out].
      rewrite Ha. split; reflexivity. }
  destruct Hp as [Ho Hn]. split; [exact Ho|]. split; [|intros He; now split].
  destruct (out (entry_print self user_goal w)) as [[]|e0] eqn:He.
  - destruct (perform_web_goal_log self user_goal w He) as (tail & -> & Ht).
    rewrite try_body_log. cbv zeta. rewrite Ho, app_nil_r.
    rewrite count_cons, count_app, Hn.
    destruct Ht as [-> | ->]; reflexivity.
  - now rewrite (perform_web_goal_not_entered self user_goal w e0 He).
Qed.

(** X5. When [summarize_results] raises in the invocation, the navigation
    has been done, once, and is followed by the calls of
    [summarize_results] and by the close call; the summary is not printed
    and neither is the exit line. *)
Theorem summarizing_failure_after_navigation (user_goal : string) (w : W) (e : exn) :
  summarize_results_raises self user_goal w e ->
  let r := perform_web_goal self user_goal w in
  count is_navigate (log r) = 1
  /\ count is_exit_print (log r) = 0
  /\ exists plan before,
       log r = before ++ [ENavigateAndLearn user_goal plan]
               ++ log (summarized self user_goal w plan)
               ++ [ECloseBrowser]
       /\ count is_navigate before = 0
       /\ count is_summarize before = 0.
Proof.
  intros (plan & He & Hp & Hq & Hx & Hs). cbv zeta.
  destruct (planning_makes_only_planning_calls self user_goal) as (_ & Hpn & Hps).
  specialize (Hpn (final (entry_print self user_goal w))).
  specialize (Hps (final (entry_print self user_goal w))).
  fold (planned self user_goal w) in Hpn, Hps.
  destruct (summarize_results_keeps_browser self user_goal) as (_ & Hsn).
  specialize (Hsn (final (executed self user_goal w plan))).
  fold (summarized self user_goal w plan) in Hsn.
  assert (Hsum : summarizing self user_goal (final (executed self user_goal w plan))
                 = {| final := final (summarized self user_goal w plan);
                      log := log (summarized self user_goal w plan);
                      out := Raised e |}).
  { unfold summarizing. rewrite bind_run.
    fold (summarized self user_goal w plan). now rewrite Hs. }
  assert (Hr : raises_in_summarizing self user_goal w e).
  { exists plan. rewrite Hsum. auto. }
  destruct (state_raise_is_body_raise self user_goal w e (or_intror (or_intror Hr)))
    as (_ & Hb).
  destruct (perform_web_goal_out self user_goal w e He Hb) as (_ & ->).
  rewrite try_body_log. cbv zeta. rewrite Hp, Hq, Hx, Hsum. cbn [log].
  pose proof (pipeline_makes_no_exit_print user_goal
                (final (entry_print self user_goal w))) as Hxq.
  fold (try_body self user_goal w) in Hxq.
  rewrite try_body_log in Hxq. cbv zeta in Hxq. rewrite Hp, Hq, Hx, Hsum in Hxq.
  cbn [log] in Hxq.
  split; [|split].
  - repeat (rewrite count_cons || rewrite count_app). rewrite Hpn, Hsn. reflexivity.
  - rewrite count_cons, count_app, Hxq. reflexivity.
  - exists plan, (EPrint (MsgReceived user_goal) :: log (planned self user_goal w)
                  ++ [EPrint (MsgPlan plan)]).
    split; [flatten; reflexivity|]. split.
    + rewrite count_cons, count_app, Hpn. reflexivity.
    + rewrite count_cons, count_app, Hps. reflexivity.
Qed.

End InvocationProperties.

(** * Further properties of [summarize_results] and of the accessors *)

Lemma substring_short (n : nat) (s : string) :
  String.length s <= n -> substring 0 n s = s.
Proof.
  revert s; induction n as [|n IH]; intros [|ch s]; simpl; intros Hl;
    try reflexivity; try lia.
  f_equal. apply IH. lia.
Qed.

Lemma is_api_request_filterable (m : pyval) :
  is_api_request m
  = if filterable m then Returned (has_api_request_type m) else Raised AttributeError.
Proof.
  destruct m as [| | | |items]; try reflexivity.
  unfold is_api_request, filterable, has_api_request_type, py_get. cbn [obind].
  destruct (dict_lookup "metadata" items) as [[| | | |metadata]|];
    cbn [obind py_get dict_lookup]; try reflexivity.
  destruct (dict_lookup "type" metadata) as [[]|]; reflexivity.
Qed.

Lemma comprehension_filterable (memories : list pyval) :
  comprehension is_api_request memories
  = if forallb filterable memories
    then Returned (List.filter has_api_request_type memories)
    else Raised AttributeError.
Proof.
  induction memories as [|m rest IH]; [reflexivity|].
  cbn [forallb comprehension List.filter].
  rewrite is_api_request_filterable.
  destruct (filterable m); cbn [obind andb]; [|reflexivity].
  rewrite IH. destruct (forallb filterable rest); reflexivity.
Qed.

Lemma excerpt_line_excerptable (i : nat) (items : list (string * pyval)) :
  excerpt_line i (VDict items)
  = if excerptable (VDict items)
    then Returned (numbered_excerpt i (VDict items))
    else Raised TypeError.
Proof.
  unfold excerpt_line, excerptable, numbered_excerpt, record_text, py_get.
  rewrite Nat.add_1_r. cbn [obind].
  destruct (dict_lookup "text" items) as [[]|]; reflexivity.
Qed.

Lemma excerpt_loop_excerptable (api_memories : list pyval) (i : nat) (api_info : string) :
  forallb filterable api_memories = true ->
  excerpt_loop i api_memories api_info
  = if forallb excerptable api_memories
    then Returned (api_info +:+
                   String.concat "" (imap (fun j => numbered_excerpt (i + j)) api_memories))
    else Raised TypeError.
Proof.
  revert i api_info. induction api_memories as [|api rest IH]; intros i api_info.
  - intros _. cbn. now rewrite append_empty_r.
  - cbn [forallb excerpt_loop imap]. intros [Hm Hrest]%andb_true_iff.
    destruct api as [| | | |items]; try discriminate Hm.
    rewrite excerpt_line_excerptable.
    destruct (excerptable (VDict items)); cbn [obind andb]; [|reflexivity].
    rewrite (IH (S i) _ Hrest).
    destruct (forallb excerptable rest); [|reflexivity].
    rewrite concat_cons, append_assoc, Nat.add_0_r.
    rewrite (imap_ext (compose (fun j => numbered_excerpt (i + j)) S)
                      (fun j => numbered_excerpt (S i + j)) rest); [reflexivity|].
    intros j x _. cbn. now rewrite Nat.add_succ_r.
Qed.

Lemma filter_filterable (p : pyval -> bool) (memories : list pyval) :
  forallb filterable memories = true ->
  forallb filterable (List.filter p memories) = true.
Proof.
  induction memories as [|m rest IH]; [reflexivity|].
  cbn [forallb List.filter]. intros [Hm Hrest]%andb_true_iff.
  destruct (p m); cbn [forallb]; rewrite ?Hm; auto.
Qed.

(** X8. The context block, for any search result: an [AttributeError] when a
    record is not a dictionary or has a ['metadata'] that is not one; else
    a [TypeError] when a record of type ['api_request'] has a ['text'] that
    is not a string; else the block.  The ['text'] of a record of another
    type is never looked at. *)
Theorem context_block_outcome (memories : list pyval) :
  context_block memories
  = if forallb filterable memories
    then if forallb excerptable (List.filter has_api_request_type memories)
         then Returned (spec_context_block memories)
         else Raised TypeError
    else Raised AttributeError.
Proof.
  unfold context_block. rewrite comprehension_filterable.
  destruct (forallb filterable memories) eqn:Hf; cbn [obind]; [|reflexivity].
  pose proof (filter_filterable has_api_request_type memories Hf) as Hk.
  unfold format_api_info, spec_context_block.
  destruct (List.filter has_api_request_type memories) as [|api kept]; [reflexivity|].
  rewrite (excerpt_loop_excerptable _ 0 _ Hk).
  destruct (forallb excerptable (api :: kept)); reflexivity.
Qed.

Lemma comprehension_app (cond : pyval -> outcome bool) (l1 l2 : list pyval) :
  comprehension cond (l1 ++ l2)
  = try! k1 := comprehension cond l1 in
    try! k2 := comprehension cond l2 in
    Returned (k1 ++ k2).
Proof.
  induction l1 as [|m l1 IH]; cbn [app comprehension obind].
  - destruct (comprehension cond l2); reflexivity.
  - destruct (cond m) as [keep|e]; cbn [obind]; [|reflexivity].
    rewrite IH. destruct (comprehension cond l1) as [k1|e]; cbn [obind]; [|reflexivity].
    destruct (comprehension cond l2) as [k2|e]; cbn [obind]; [|reflexivity].
    destruct keep; reflexivity.
Qed.

(** X9. A record on which the condition of the comprehension is false leaves
    no trace: with it or without it, anywhere in the search result, the
    context block is the same, and so is the exception when there is
    one. *)
Theorem other_records_leave_no_trace (before after : list pyval) (m : pyval) :
  is_api_request m = Returned false ->
  context_block (before ++ m :: after) = context_block (before ++ after).
Proof.
  intros Hm. unfold context_block. rewrite !comprehension_app.
  cbn [comprehension]. rewrite Hm. cbn [obind].
  destruct (comprehension is_api_request before) as [k1|e]; cbn [obind]; [|reflexivity].
  destruct (comprehension is_api_request after) as [k2|e]; reflexivity.
Qed.

(** X10. The excerpt of a kept record is its number, the first 200 characters
    of the text and three dots: a text of at most 200 characters is there
    whole, and the dots follow it all the same; of a longer one exactly
    200 characters are there. *)
Theorem excerpt_of_text (i : nat) (items : list (string * pyval)) (text : string) :
  dict_lookup "text" items = Some (VStr text) ->
  excerpt_line i (VDict items)
  = Returned (str_of_nat (i + 1) +:+ ". " +:+ substring 0 200 text +:+ "..." +:+ newline)
  /\ (String.length text <= 200 -> substring 0 200 text = text)
  /\ (200 <= String.length text -> String.length (substring 0 200 text) = 200).
Proof.
  intros Ht. split; [|split].
  - unfold excerpt_line, py_get. now rewrite Ht.
  - apply substring_short.
  - intros Hl. rewrite substring_prefix_length. lia.
Qed.

Section SummaryFailures.

Context {W Obj : Type} (self : collaborators W Obj).

(** X6. When the memory search raises, [summarize_results] raises the same
    exception after that one call: the inference client is not called. *)
Theorem search_failure_skips_inference (user_goal : string) (w : W) (e : exn) :
  (search_memory self user_goal 10 w).2 = Raised e ->
  summarize_results self user_goal w
  = {| final := (search_memory self user_goal 10 w).1;
       log := [ESearchMemory user_goal 10];
       out := Raised e |}.
Proof.
  intros Hs. unfold summarize_results, bind, call. cbv beta zeta.
  cbn [final log out]. rewrite Hs. reflexivity.
Qed.

(** [summarize_results] once the search has returned: it stops there when
    the context block cannot be built, and else makes the inference call
    and reads the response. *)
Lemma summarize_results_after_search (user_goal : string) (w : W)
    (memories : list pyval) :
  (search_memory self user_goal 10 w).2 = Returned memories ->
  let w1 := (search_memory self user_goal 10 w).1 in
  summarize_results self user_goal w =
  match context_block memories with
  | Raised e =>
      {| final := w1; log := [ESearchMemory user_goal 10]; out := Raised e |}
  | Returned api_info =>
      let prompt := build_prompt user_goal api_info in
      {| final := (generate_text self prompt "general" w1).1;
         log := [ESearchMemory user_goal 10; EGenerateText prompt "general"];
         out := try! response := (generate_text self prompt "general" w1).2 in
                py_get response "response" (VStr "No summary available.") |}
  end.
Proof.
  intros Hs. cbv zeta.
  unfold summarize_results, context_block, bind, call, lift. cbv beta zeta.
  cbn [final log out]. rewrite Hs. cbn [final log out].
  destruct (comprehension is_api_request memories) as [kept|e];
    cbn [final log out obind]; [|reflexivity].
  destruct (format_api_info kept) as [info|e]; cbn [final log out app];
    [|reflexivity].
  destruct (generate_text self _ "general" _) as [w2 [response|e]];
    cbn [fst snd obind]; reflexivity.
Qed.

(** X7. A search result with a record that is not a dictionary, or whose
    ['metadata'] is present and is not one, makes [summarize_results]
    raise [AttributeError] before the inference client is called. *)
Theorem malformed_record_raises (user_goal : string) (w : W)
    (memories : list pyval) :
  (search_memory self user_goal 10 w).2 = Returned memories ->
  forallb filterable memories = false ->
  summarize_results self user_goal w
  = {| final := (search_memory self user_goal 10 w).1;
       log := [ESearchMemory user_goal 10];
       out := Raised AttributeError |}.
Proof.
  intros Hs Hf. rewrite (summarize_results_after_search user_goal w memories Hs).
  cbv zeta. unfold context_block. rewrite comprehension_filterable, Hf. reflexivity.
Qed.

(** X11. Once the prompt is built, an exception of the inference client is
    the exception of [summarize_results]; a response that is not a
    dictionary gives [AttributeError]; and the value under ['response'],
    whatever it is ([None] included), is returned in place of the
    fallback text, which is used only when the key is missing. *)
Theorem response_is_read_as_it_is (user_goal : string) (w : W)
    (memories : list pyval) (api_info : string) :
  (search_memory self user_goal 10 w).2 = Returned memories ->
  context_block memories = Returned api_info ->
  out (summarize_results self user_goal w)
  = match (generate_text self (build_prompt user_goal api_info) "general"
                         (search_memory self user_goal 10 w).1).2 with
    | Raised e => Raised e
    | Returned (VDict items) =>
        match dict_lookup "response" items with
        | Some v => Returned v
        | None => Returned (VStr "No summary available.")
        end
    | Returned _ => Raised AttributeError
    end.
Proof.
  intros Hs Hb. rewrite (summarize_results_after_search user_goal w memories Hs).
  cbv zeta. rewrite Hb. cbn [out].
  destruct (generate_text self _ "general" _).2 as [[| | | |items]|e];
    cbn [obind py_get]; try reflexivity.
  destruct (dict_lookup "response" items); reflexivity.
Qed.

(** X12. [summarize_results], [api_search] and [generate_code_for_task] make
    no call on the web navigator: they do not read its state, navigate or
    close the browser.  [generate_code_for_task] makes the one call
    [generate_code(task_description)] and hands over its outcome. *)
Theorem accessors_leave_browser_alone (text : string) :
  makes_no is_browser_call (summarize_results self text)
  /\ makes_no is_browser_call (api_search self text)
  /\ makes_no is_browser_call (generate_code_for_task self text)
  /\ forall w,
       log (generate_code_for_task self text w) = [EGenerateCode text]
       /\ out (generate_code_for_task self text w) = (generate_code self text w).2
       /\ final (generate_code_for_task self text w) = (generate_code self text w).1.
Proof.
  split; [|split; [|split]].
  - unfold summarize_results.
    repeat first
      [ apply makes_no_bind; [|intros ?]
      | apply makes_no_call; reflexivity
      | apply makes_no_lift ].
  - now apply makes_no_call.
  - now apply makes_no_call.
  - intros w. repeat split.
Qed.

End SummaryFailures.

(** * Further properties of the construction *)

Lemma alloc_fresh_for (o : object) (h0 h h' : gmap loc object) (l : loc) :
  (forall l' x, h0 !! l' = Some x -> h !! l' = Some x) ->
  alloc o h = (l, h') -> h0 !! l = None.
Proof.
  intros Hsub [Hf _]%alloc_spec.
  destruct (h0 !! l) as [x|] eqn:Hl; [|reflexivity].
  apply Hsub in Hl. congruence.
Qed.

Lemma alloc_size (o : object) (h h' : gmap loc object) (l : loc) :
  alloc o h = (l, h') -> size h' = S (size h).
Proof.
  intros [Hf ->]%alloc_spec. now apply map_size_insert_None.
Qed.

(** What the constructor leaves in the heap. *)
Lemma Navigator_init_facts (client : loc) (manager : option loc) (h : gmap loc object) :
  let nav := (Navigator_init client manager h).1 in
  let h' := (Navigator_init client manager h).2 in
  (forall l o, h !! l = Some o -> h' !! l = Some o)
  /\ (ollama_client nav = client
      /\ h' !! code_assistant nav = Some (CodeAssistant client)
      /\ h' !! planner nav = Some (TaskPlanner client)
      /\ h' !! api_reverse_engineer nav = Some (APIReverseEngineer client)
      /\ h' !! semantic_indexer nav = Some (SemanticIndexer client)
      /\ h' !! web_navigator nav
         = Some (WebNavigator client (selenium_manager nav)
                              "_get_db_session_for_navigator"))
  /\ (h !! code_assistant nav = None
      /\ h !! planner nav = None
      /\ h !! api_reverse_engineer nav = None
      /\ h !! semantic_indexer nav = None
      /\ h !! web_navigator nav = None)
  /\ match manager with
     | Some m => selenium_manager nav = m
     | None => h !! selenium_manager nav = None
               /\ h' !! selenium_manager nav = Some (SeleniumManager false)
     end
  /\ size h' = size h + match manager with Some _ => 5 | None => 6 end.
Proof.
  cbv zeta. unfold Navigator_init.
  destruct (match manager with
            | Some m => (m, h)
            | None => alloc (SeleniumManager false) h
            end) as [sm h1] eqn:E1.
  destruct (alloc (CodeAssistant client) h1) as [ca h2] eqn:E2.
  destruct (alloc (TaskPlanner client) h2) as [pl h3] eqn:E3.
  destruct (alloc (APIReverseEngineer client) h3) as [re h4] eqn:E4.
  destruct (alloc (SemanticIndexer client) h4) as [si h5] eqn:E5.
  destruct (alloc (WebNavigator client sm "_get_db_session_for_navigator") h5)
    as [wn h6] eqn:E6.
  cbn [fst snd ollama_client selenium_manager code_assistant planner
       api_reverse_engineer semantic_indexer web_navigator].
  assert (K1 : forall l o, h !! l = Some o -> h1 !! l = Some o).
  { intros l o Hl. destruct manager as [m|].
    - now injection E1 as <- <-.
    - eapply alloc_keeps; [exact E1 | exact Hl]. }
  pose proof (fun l o => alloc_keeps _ _ _ _ l o E2) as K2.
  pose proof (fun l o => alloc_keeps _ _ _ _ l o E3) as K3.
  pose proof (fun l o => alloc_keeps _ _ _ _ l o E4) as K4.
  pose proof (fun l o => alloc_keeps _ _ _ _ l o E5) as K5.
  pose proof (fun l o => alloc_keeps _ _ _ _ l o E6) as K6.
  assert (N2 : h2 !! ca = Some (CodeAssistant client))
    by (apply alloc_spec in E2 as [_ ->]; apply lookup_insert_eq).
  assert (N3 : h3 !! pl = Some (TaskPlanner client))
    by (apply alloc_spec in E3 as [_ ->]; apply lookup_insert_eq).
  assert (N4 : h4 !! re = Some (APIReverseEngineer client))
    by (apply alloc_spec in E4 as [_ ->]; apply lookup_insert_eq).
  assert (N5 : h5 !! si = Some (SemanticIndexer client))
    by (apply alloc_spec in E5 as [_ ->]; apply lookup_insert_eq).
  assert (N6 : h6 !! wn = Some (WebNavigator client sm "_get_db_session_for_navigator"))
    by (apply alloc_spec in E6 as [_ ->]; apply lookup_insert_eq).
  split; [auto 10|]. split; [|split; [|split]].
  - repeat split; auto 10.
  - repeat split.
    + eapply alloc_fresh_for; [|exact E2]. auto.
    + eapply alloc_fresh_for; [|exact E3]. auto.
    + eapply alloc_fresh_for; [|exact E4]. auto.
    + eapply alloc_fresh_for; [|exact E5]. auto 10.
    + eapply alloc_fresh_for; [|exact E6]. auto 10.
  - destruct manager as [m|].
    + now injection E1 as <- _.
    + pose proof (alloc_spec _ _ _ _ E1) as [Hf Hh1]. split; [exact Hf|].
      do 5 (first [apply K6 | apply K5 | apply K4 | apply K3 | apply K2]).
      rewrite Hh1. apply lookup_insert_eq.
  - rewrite (alloc_size _ _ _ _ E6), (alloc_size _ _ _ _ E5), (alloc_size _ _ _ _ E4),
      (alloc_size _ _ _ _ E3), (alloc_size _ _ _ _ E2).
    destruct manager as [m|].
    + injection E1 as _ <-. lia.
    + rewrite (alloc_size _ _ _ _ E1). lia.
Qed.

(** X13. The constructor binds the code assistant, the planner, the API
    reverse engineer, the semantic indexer and the web navigator to the
    client it was given.  The five are new objects at references that
    were free, and the heap grows by exactly these five, and by the
    browser session manager when none was supplied. *)
Theorem components_share_client (client : loc) (manager : option loc)
    (h : gmap loc object) :
  let nav := (Navigator_init client manager h).1 in
  let h' := (Navigator_init client manager h).2 in
  (ollama_client nav = client
   /\ h' !! code_assistant nav = Some (CodeAssistant client)
   /\ h' !! planner nav = Some (TaskPlanner client)
   /\ h' !! api_reverse_engineer nav = Some (APIReverseEngineer client)
   /\ h' !! semantic_indexer nav = Some (SemanticIndexer client)
   /\ h' !! web_navigator nav
      = Some (WebNavigator client (selenium_manager nav)
                           "_get_db_session_for_navigator"))
  /\ (h !! code_assistant nav = None
      /\ h !! planner nav = None
      /\ h !! api_reverse_engineer nav = None
      /\ h !! semantic_indexer nav = None
      /\ h !! web_navigator nav = None)
  /\ size h' = size h + match manager with Some _ => 5 | None => 6 end.
Proof.
  cbv zeta.
  destruct (Navigator_init_facts client manager h) as (_ & Hc & Hn & _ & Hs).
  auto.
Qed.

(** X14. Two engines built one after the other without a manager get two
    browser session managers, at different references, each visible, and
    each web navigator holds the manager of its own engine. *)
Theorem default_managers_are_separate (client1 client2 : loc) (h : gmap loc object) :
  let n1 := (Navigator_init client1 None h).1 in
  let h1 := (Navigator_init client1 None h).2 in
  let n2 := (Navigator_init client2 None h1).1 in
  let h2 := (Navigator_init client2 None h1).2 in
  selenium_manager n1 <> selenium_manager n2
  /\ h2 !! selenium_manager n1 = Some (SeleniumManager false)
  /\ h2 !! selenium_manager n2 = Some (SeleniumManager false)
  /\ h2 !! web_navigator n1
     = Some (WebNavigator client1 (selenium_manager n1) "_get_db_session_for_navigator")
  /\ h2 !! web_navigator n2
     = Some (WebNavigator client2 (selenium_manager n2) "_get_db_session_for_navigator").
Proof.
  cbv zeta.
  destruct (Navigator_init_facts client1 None h)
    as (_ & (_ & _ & _ & _ & _ & Hw1) & _ & (_ & Hm1) & _).
  destruct (Navigator_init_facts client2 None (Navigator_init client1 None h).2)
    as (Hk & (_ & _ & _ & _ & _ & Hw2) & _ & (Hf2 & Hm2) & _).
  cbv zeta in *.
  split; [|split; [|split; [|split]]].
  - intros Heq. rewrite <- Heq in Hf2. congruence.
  - apply Hk, Hm1.
  - exact Hm2.
  - apply Hk, Hw1.
  - exact Hw2.
Qed.

(** X15. Two engines built one after the other with the same manager hold that
    one manager, and so do their two web navigators, which are two
    objects; no browser session manager is built. *)
Theorem injected_manager_is_shared (client1 client2 manager : loc)
    (h : gmap loc object) :
  let n1 := (Navigator_init client1 (Some manager) h).1 in
  let h1 := (Navigator_init client1 (Some manager) h).2 in
  let n2 := (Navigator_init client2 (Some manager) h1).1 in
  let h2 := (Navigator_init client2 (Some manager) h1).2 in
  selenium_manager n1 = manager
  /\ selenium_manager n2 = manager
  /\ h2 !! web_navigator n1
     = Some (WebNavigator client1 manager "_get_db_session_for_navigator")
  /\ h2 !! web_navigator n2
     = Some (WebNavigator client2 manager "_get_db_session_for_navigator")
  /\ web_navigator n1 <> web_navigator n2
  /\ size h2 = size h + 10.
Proof.
  cbv zeta.
  destruct (Navigator_init_facts client1 (Some manager) h)
    as (_ & (_ & _ & _ & _ & _ & Hw1) & _ & Hm1 & Hs1).
  destruct (Navigator_init_facts client2 (Some manager)
              (Navigator_init client1 (Some manager) h).2)
    as (Hk & (_ & _ & _ & _ & _ & Hw2) & (_ & _ & _ & _ & Hf2) & Hm2 & Hs2).
  cbv zeta in *.
  rewrite Hm1 in Hw1. rewrite Hm2 in Hw2.
  split; [exact Hm1|]. split; [exact Hm2|]. split; [apply Hk, Hw1|].
  split; [exact Hw2|]. split; [|lia].
  intros Heq. rewrite <- Heq in Hf2. congruence.
Qed.

(** * The further properties on scripted collaborators *)

Lemma successful_invocation_trace_witness :
  out (planned all_well "find the pricing API" false)
    = Returned "1. open the pricing page"
  /\ out (perform_web_goal all_well "find the pricing API" false) = Returned tt
  /\ final (perform_web_goal all_well "find the pricing API" false) = false.
Proof.
  split; [reflexivity|].
  pose proof (successful_invocation_trace all_well "find the pricing API" false
                "1. open the pricing page" (VStr "Found two pricing endpoints.")
                eq_refl eq_refl eq_refl eq_refl eq_refl eq_refl eq_refl eq_refl) as H.
  cbv zeta in H. destruct H as (Ho & Hf & _).
  split; [exact Ho | exact Hf].
Defined.

Lemma planner_receives_snapshot_witness :
  (current_url all_well false).2 = Returned "about:blank"
  /\ log (planning all_well "find the pricing API" false)
     = [EGetCurrentUrl; EGetPageContent; EGetCapturedApis;
        ECreateDetailedPlan "find the pricing API" "about:blank" "<html></html>" "[]"].
Proof.
  split; [reflexivity|].
  exact (f_equal log
           (planner_receives_snapshot all_well "find the pricing API" false
              "about:blank" "<html></html>" "[]" eq_refl eq_refl eq_refl)).
Defined.

Lemma failed_read_skips_planner_witness :
  let self := with_page_content (Raised stale_element) all_well in
  (page_content self (current_url self true).1).2 = Raised stale_element
  /\ raises_in_planning self "find the pricing API" true stale_element
  /\ count is_plan (log (perform_web_goal self "find the pricing API" true)) = 0.
Proof.
  cbv zeta. split; [reflexivity|].
  pose proof (failed_read_skips_planner
                (with_page_content (Raised stale_element) all_well)
                "find the pricing API" true stale_element
                (or_intror (or_introl (ex_intro _ "about:blank" (conj eq_refl eq_refl)))))
    as (_ & Hn & Hr).
  split; [exact (Hr eq_refl) | exact Hn].
Defined.

Lemma summarizing_failure_after_navigation_witness :
  let self := scripted (Returned "1. open the pricing page") (Returned tt) (Returned tt)
                       (Raised memory_store_down) (Returned (VDict [])) in
  summarize_results_raises self "find the pricing API" false memory_store_down
  /\ count is_navigate (log (perform_web_goal self "find the pricing API" false)) = 1
  /\ count is_exit_print (log (perform_web_goal self "find the pricing API" false)) = 0.
Proof.
  cbv zeta.
  assert (H : summarize_results_raises
                (scripted (Returned "1. open the pricing page") (Returned tt) (Returned tt)
                          (Raised memory_store_down) (Returned (VDict [])))
                "find the pricing API" false memory_store_down).
  { exists "1. open the pricing page". repeat split. }
  split; [exact H|].
  pose proof (summarizing_failure_after_navigation _ "find the pricing API" false
                memory_store_down H) as H'.
  cbv zeta in H'. destruct H' as (Hn & He & _).
  split; [exact Hn | exact He].
Defined.

Lemma other_records_leave_no_trace_witness :
  is_api_request (page_record "Pricing page") = Returned false
  /\ context_block pricing_memories
     = context_block [api_record "GET /api/v1/pricing"; api_record "POST /api/v1/quote"].
Proof.
  split; [reflexivity|].
  exact (other_records_leave_no_trace [api_record "GET /api/v1/pricing"]
           [api_record "POST /api/v1/quote"] (page_record "Pricing page") eq_refl).
Defined.

Lemma excerpt_of_text_witness :
  excerpt_line 2 (VDict [("text", VStr "GET /health")])
  = Returned ("3. GET /health..." +:+ newline).
Proof.
  exact (proj1 (excerpt_of_text 2 [("text", VStr "GET /health")] "GET /health" eq_refl)).
Defined.

Lemma search_failure_skips_inference_witness :
  let self := scripted (Returned "plan") (Returned tt) (Returned tt)
                       (Raised memory_store_down) (Returned (VDict [])) in
  (search_memory self "find the pricing API" 10 true).2 = Raised memory_store_down
  /\ log (summarize_results self "find the pricing API" true)
     = [ESearchMemory "find the pricing API" 10].
Proof.
  cbv zeta. split; [reflexivity|].
  exact (f_equal log
           (search_failure_skips_inference
              (scripted (Returned "plan") (Returned tt) (Returned tt)
                        (Raised memory_store_down) (Returned (VDict [])))
              "find the pricing API" true memory_store_down eq_refl)).
Defined.

Lemma malformed_record_raises_witness :
  let memories := [api_record "GET /api/v1/pricing";
                   VDict [("text", VStr "x"); ("metadata", VNone)]] in
  let self := scripted (Returned "plan") (Returned tt) (Returned tt)
                       (Returned memories) (Returned (VDict [])) in
  forallb filterable memories = false
  /\ out (summarize_results self "find the pricing API" true) = Raised AttributeError.
Proof.
  cbv zeta. split; [reflexivity|].
  exact (f_equal out
           (malformed_record_raises
              (scripted (Returned "plan") (Returned tt) (Returned tt)
                        (Returned [api_record "GET /api/v1/pricing";
                                   VDict [("text", VStr "x"); ("metadata", VNone)]])
                        (Returned (VDict [])))
              "find the pricing API" true
              [api_record "GET /api/v1/pricing";
               VDict [("text", VStr "x"); ("metadata", VNone)]]
              eq_refl eq_refl)).
Defined.

Lemma response_is_read_as_it_is_witness :
  let self := scripted (Returned "plan") (Returned tt) (Returned tt)
                       (Returned []) (Returned (VDict [("response", VNone)])) in
  context_block [] = Returned ""
  /\ out (summarize_results self "find the pricing API" true) = Returned VNone.
Proof.
  cbv zeta. split; [reflexivity|].
  exact (response_is_read_as_it_is
           (scripted (Returned "plan") (Returned tt) (Returned tt)
                     (Returned []) (Returned (VDict [("response", VNone)])))
           "find the pricing API" true [] "" eq_refl eq_refl).
Defined.

(** * Records with missing fields *)

(** A record on which the condition of line 106 is false can be taken out
    of the search result, wherever it stands. *)
Lemma false_condition_is_skipped (before after : list pyval) (m : pyval) :
  is_api_request m = Returned false ->
  context_block (before ++ m :: after) = context_block (before ++ after).
Proof.
  intros Hm. unfold context_block. rewrite !comprehension_app.
  cbn [comprehension]. rewrite Hm. cbn [obind].
  destruct (comprehension is_api_request before) as [k1|e]; cbn [obind]; [|reflexivity].
  destruct (comprehension is_api_request after) as [k2|e]; reflexivity.
Qed.

Section MissingFields.

Context {W Obj : Type} (self : collaborators W Obj).

(** C10, as amended.  Records with missing keys are tolerated.  A record
    without a ['metadata'] key, or whose metadata is a dictionary without a
    ['type'] key, does not satisfy the condition of the comprehension, the
    condition does not raise, and the context block is what it would be
    without the record.  A kept record without a ['text'] key is excerpted
    from the empty string.  On a search result of such records
    [summarize_results] builds the block of the records of type
    ['api_request'], one numbered line for each, sends the prompt, and
    raises only if the inference call does. *)
Theorem incomplete_records_tolerated :
  (forall items before after,
     dict_lookup "metadata" items = None ->
     is_api_request (VDict items) = Returned false
     /\ context_block (before ++ VDict items :: after) = context_block (before ++ after))
  /\ (forall items metadata before after,
        dict_lookup "metadata" items = Some (VDict metadata) ->
        dict_lookup "type" metadata = None ->
        is_api_request (VDict items) = Returned false
        /\ context_block (before ++ VDict items :: after)
           = context_block (before ++ after))
  /\ (forall i items,
        dict_lookup "text" items = None ->
        excerpt_line i (VDict items)
        = Returned (str_of_nat (i + 1) +:+ ". " +:+ "" +:+ "..." +:+ newline))
  /\ (forall memories,
        forallb well_formed_record memories = true ->
        let kept := List.filter has_api_request_type memories in
        context_block memories
        = Returned (match kept with
                    | [] => ""
                    | _ :: _ => ("APIs discovered:" +:+ newline)
                                +:+ String.concat "" (imap numbered_excerpt kept)
                    end)
        /\ (forall i items,
              kept !! i = Some (VDict items) ->
              dict_lookup "text" items = None ->
              imap numbered_excerpt kept !! i
              = Some (str_of_nat (i + 1) +:+ ". " +:+ "" +:+ "..." +:+ newline))
        /\ forall user_goal w,
             (search_memory self user_goal 10 w).2 = Returned memories ->
             let prompt := build_prompt user_goal (spec_context_block memories) in
             let inference :=
               generate_text self prompt "general" (search_memory self user_goal 10 w).1 in
             log (summarize_results self user_goal w)
             = [ESearchMemory user_goal 10; EGenerateText prompt "general"]
             /\ out (summarize_results self user_goal w)
                = (try! response := inference.2 in
                   py_get response "response" (VStr "No summary available."))).
Proof.
  assert (Hno_metadata : forall items,
            dict_lookup "metadata" items = None ->
            is_api_request (VDict items) = Returned false).
  { intros items Hm. unfold is_api_request, py_get. now rewrite Hm. }
  assert (Hno_type : forall items metadata,
            dict_lookup "metadata" items = Some (VDict metadata) ->
            dict_lookup "type" metadata = None ->
            is_api_request (VDict items) = Returned false).
  { intros items metadata Hm Ht. unfold is_api_request, py_get. rewrite Hm.
    cbn [obind]. now rewrite Ht. }
  split; [|split; [|split]].
  - intros items before after Hm. split; [now apply Hno_metadata|].
    apply false_condition_is_skipped. now apply Hno_metadata.
  - intros items metadata before after Hm Ht. split; [now apply (Hno_type _ metadata)|].
    apply false_condition_is_skipped. now apply (Hno_type _ metadata).
  - intros i items Ht. unfold excerpt_line, py_get. now rewrite Ht.
  - intros memories Hwf. cbv zeta.
    destruct (context_block_well_formed memories Hwf) as (_ & _ & Hb).
    split; [|split].
    + rewrite Hb. unfold spec_context_block.
      now destruct (List.filter has_api_request_type memories).
    + intros i items Hi Ht. rewrite list_lookup_imap, Hi.
      unfold numbered_excerpt, record_text. cbn [fmap option_fmap option_map].
      now rewrite Ht, Nat.add_1_r.
    + intros user_goal w Hs.
      rewrite (summarize_results_run self user_goal w memories Hs Hwf).
      cbv zeta. split; reflexivity.
Qed.

End MissingFields.

(** C10: the claim as stated fails.  A record whose ['metadata'] is
    [None] has no metadata mapping; the condition of the comprehension
    raises [AttributeError] on it, and so does [summarize_results], before
    the inference client is called. *)
Lemma metadata_none_is_not_tolerated :
  let m := VDict [("text", VStr "GET /api/v1/pricing"); ("metadata", VNone)] in
  let self := scripted (Returned "plan") (Returned tt) (Returned tt)
                       (Returned [m]) (Returned (VDict [])) in
  dict_lookup "metadata" [("text", VStr "GET /api/v1/pricing"); ("metadata", VNone)]
    = Some VNone
  /\ is_api_request m = Raised AttributeError
  /\ out (summarize_results self "find the pricing API" true) = Raised AttributeError
  /\ log (summarize_results self "find the pricing API" true)
     = [ESearchMemory "find the pricing API" 10].
Proof. cbv zeta. repeat split. Qed.

Lemma incomplete_records_tolerated_witness :
  let bare := VDict [("metadata", VDict [("type", VStr "api_request")])] in
  let untyped := VDict [("text", VStr "a page"); ("metadata", VDict [])] in
  context_block [untyped; bare; VDict [("text", VStr "no metadata")]]
  = Returned ("APIs discovered:" +:+ newline +:+ "1. ..." +:+ newline)
  /\ log (summarize_results
            (scripted (Returned "plan") (Returned tt) (Returned tt)
                      (Returned [untyped; bare; VDict [("text", VStr "no metadata")]])
                      (Returned (VDict [])))
            "find the pricing API" true)
     = [ESearchMemory "find the pricing API" 10;
        EGenerateText
          (build_prompt "find the pricing API"
             ("APIs discovered:" +:+ newline +:+ "1. ..." +:+ newline))
          "general"].
Proof.
  cbv zeta.
  pose proof (proj2 (proj2 (proj2
    (incomplete_records_tolerated
       (scripted (Returned "plan") (Returned tt) (Returned tt)
          (Returned [VDict [("text", VStr "a page"); ("metadata", VDict [])];
                     VDict [("metadata", VDict [("type", VStr "api_request")])];
                     VDict [("text", VStr "no metadata")]])
          (Returned (VDict []))))))
    [VDict [("text", VStr "a page"); ("metadata", VDict [])];
     VDict [("metadata", VDict [("type", VStr "api_request")])];
     VDict [("text", VStr "no metadata")]] eq_refl) as H.
  cbv zeta in H. destruct H as (Hb & _ & Hs).
  split; [exact Hb|].
  exact (proj1 (Hs "find the pricing API" true eq_refl)).
Defined.
